(** * Login and renewal verification of the CF auth backend (path_login.go)

    A shallow embedding of [operationLoginUpdate], [pathLoginRenew],
    [validate], [meetsBoundConstraints], [matchesIPAddress], [parseTime] and
    [getOrErr], together with the properties of the specification that
    concern them. *)

From Stdlib Require Import ZArith Lia Ascii.
From stdpp Require Import base strings list gmap pretty.

Local Open Scope Z_scope.

(** ** Go values used by the handlers *)

(** The double-quote character, as [%q] writes it around a string. *)
Definition dquote : string := String (Ascii.ascii_of_nat 34) EmptyString.

(** [s == ""] on Go strings. *)
Definition is_empty (s : string) : bool :=
  match s with
  | EmptyString => true
  | String _ _ => false
  end.

(** [strings.Contains]-style test, used to read messages. *)
Fixpoint has_substring (needle s : string) : bool :=
  String.prefix needle s
  || match s with
     | EmptyString => false
     | String _ rest => has_substring needle rest
     end.

(** A Go [error] value.  [logical.ErrPermissionDenied] is a sentinel of the
    SDK that callers compare by identity; every other error is known by its
    message. *)
Inductive error : Type :=
  | ErrPermissionDenied
  | ErrMsg (msg : string).

(** [err.Error()] *)
Definition Error (e : error) : string :=
  match e with
  | ErrPermissionDenied => "permission denied"
  | ErrMsg msg => msg
  end.

(** [errors.New] and [fmt.Errorf] once the message is formatted. *)
Definition errors_New (msg : string) : error := ErrMsg msg.

(** [time.Duration]: a count of nanoseconds (an int64 in Go). *)
Definition Duration := Z.
Definition Second : Duration := 1000000000.

(** [time.Time] after [UTC()]: an instant, counted in nanoseconds.  [Add]
    is exact on wall-clock instants such as [time.Now()] returns (the
    saturation of the library lies some hundred billion years away). *)
Definition Time := Z.
Definition Time_Add (t : Time) (d : Duration) : Time := t + d.
Definition Time_Before (t u : Time) : bool := t <? u.
Definition Time_After (t u : Time) : bool := u <? t.

(** [%d] of an integer. *)
Definition fmt_d (n : Z) : string := pretty n.

(** [%s] of a [[]string]: the elements between brackets, separated by spaces. *)
Fixpoint join_spaces (l : list string) : string :=
  match l with
  | [] => ""
  | [x] => x
  | x :: rest => x +:+ " " +:+ join_spaces rest
  end.
Definition fmt_strings (l : list string) : string := "[" +:+ join_spaces l +:+ "]".

(** ** strutil and strings *)

Module strutil.
(** [StrListContains]: linear scan with [==]. *)
Fixpoint StrListContains (haystack : list string) (needle : string) : bool :=
  match haystack with
  | [] => false
  | item :: rest => if String.eqb item needle then true else StrListContains rest needle
  end.
End strutil.

Module strings.
(** [strings.Split(s, sep)] for a separator of one byte: the pieces of [s]
    between occurrences of [sep], in order; never the empty slice. *)
Fixpoint Split (s : string) (sep : ascii) : list string :=
  match s with
  | EmptyString => [""]
  | String c rest =>
      if Ascii.eqb c sep then "" :: Split rest sep
      else match Split rest sep with
           | [] => [String c ""]
           | piece :: pieces => String c piece :: pieces
           end
  end.
End strings.

(** ** net.IP *)

Module net.
(** [net.IP] is a byte slice; the nil slice has no bytes. *)
Definition IP := list Z.
Definition nilIP : IP := [].

Definition IPv4len : nat := 4.
Definition IPv6len : nat := 16.
Definition v4InV6Prefix : list Z := [0; 0; 0; 0; 0; 0; 0; 0; 0; 0; 255; 255].

(** [bytealg.Equal] *)
Fixpoint bytes_equal (a b : list Z) : bool :=
  match a, b with
  | [], [] => true
  | x :: a', y :: b' => (x =? y) && bytes_equal a' b'
  | _, _ => false
  end.

(** [func (ip IP) Equal(x IP) bool]: an IPv4 address and the same address
    in its 16-byte form are equal. *)
Definition Equal (ip x : IP) : bool :=
  if (length ip =? length x)%nat then bytes_equal ip x
  else if (length ip =? IPv4len)%nat && (length x =? IPv6len)%nat then
    bytes_equal (take 12 x) v4InV6Prefix && bytes_equal ip (drop 12 x)
  else if (length ip =? IPv6len)%nat && (length x =? IPv4len)%nat then
    bytes_equal (take 12 ip) v4InV6Prefix && bytes_equal (drop 12 ip) x
  else false.

(** [net.IPv4(a, b, c, d)]: the 16-byte form of an IPv4 address. *)
Definition IPv4 (a b c d : Z) : IP := v4InV6Prefix ++ [a; b; c; d].
End net.

(** ** Dotted-quad text

    [net.ParseIP] and [cidrutil.RemoteAddrIsOk] belong to the Go library and
    to the SDK.  The handlers below take them as collaborators; this module
    gives their reading of IPv4 text, which is what the examples run on. *)

Module ipv4.
Definition digit (c : ascii) : option Z :=
  let n := Z.of_nat (Ascii.nat_of_ascii c) in
  if (48 <=? n) && (n <=? 57) then Some (n - 48) else None.

Fixpoint number_go (s : string) (acc : Z) : option Z :=
  match s with
  | EmptyString => Some acc
  | String c rest =>
      match digit c with
      | Some d => number_go rest (10 * acc + d)
      | None => None
      end
  end.

(** One decimal field: one to three digits, no leading zero, at most 255. *)
Definition octet (s : string) : option Z :=
  match s with
  | EmptyString => None
  | String c rest =>
      if (3 <? String.length s)%nat then None
      else if Ascii.eqb c "0"%char && negb (is_empty rest) then None
      else match number_go s 0 with
           | Some n => if n <=? 255 then Some n else None
           | None => None
           end
  end.

Definition quad (s : string) : option (Z * Z * Z * Z) :=
  match strings.Split s "."%char with
  | [a; b; c; d] =>
      match octet a, octet b, octet c, octet d with
      | Some a, Some b, Some c, Some d => Some (a, b, c, d)
      | _, _, _, _ => None
      end
  | _ => None
  end.

(** [net.ParseIP] on IPv4 text; any other text gives the nil IP. *)
Definition ParseIP (s : string) : net.IP :=
  match quad s with
  | Some (a, b, c, d) => net.IPv4 a b c d
  | None => net.nilIP
  end.

Definition to_word (q : Z * Z * Z * Z) : Z :=
  let '(a, b, c, d) := q in
  Z.lor (Z.lor (Z.shiftl a 24) (Z.shiftl b 16)) (Z.lor (Z.shiftl c 8) d).

(** An IPv4 network: its address and the length of its prefix. *)
Record Block := { network : Z * Z * Z * Z; prefix : Z }.

Definition Contains (blk : Block) (q : Z * Z * Z * Z) : bool :=
  let drop := 32 - prefix blk in
  Z.shiftr (to_word (network blk)) drop =? Z.shiftr (to_word q) drop.

(** [cidrutil.RemoteAddrIsOk]: no block means no restriction; an address
    that does not parse is refused; otherwise one block must contain it. *)
Definition RemoteAddrIsOk (remoteAddr : string) (boundCIDRs : list Block) : bool :=
  if (length boundCIDRs =? 0)%nat then true
  else match quad remoteAddr with
       | None => false
       | Some q => existsb (fun blk => Contains blk q) boundCIDRs
       end.
End ipv4.

(** ** Data model *)

(** A value held under [interface{}]. *)
Inductive Value : Type :=
  | VString (s : string)
  | VInt (n : Z)
  | VBool (b : bool)
  | VNil.

(** [models.RoleEntry]; the bound CIDRs are parsed socket addresses of the
    SDK, of type [cidrT] here. *)
Record RoleEntry {cidrT : Type} := {
  BoundAppIDs : list string;
  BoundSpaceIDs : list string;
  BoundOrgIDs : list string;
  BoundInstanceIDs : list string;
  DisableIPMatching : bool;
  TokenBoundCIDRs : list cidrT;
  TokenTTL : Duration;
  TokenMaxTTL : Duration;
  TokenPeriod : Duration
}.
Arguments RoleEntry : clear implicits.

(** [models.Configuration], as far as login reads it. *)
Record Configuration := {
  IdentityCACertificates : list string;
  LoginMaxSecNotBefore : Duration;
  LoginMaxSecNotAfter : Duration
}.

(** [models.CFCertificate] *)
Record CFCertificate := {
  InstanceID : string;
  AppID : string;
  SpaceID : string;
  OrgID : string;
  IPAddress : string
}.

(** [signatures.SignatureData] *)
Record SignatureData := {
  SigningTime : Time;
  Role : string;
  CFInstanceCertContents : string
}.

(** Records of the platform API ([cfclient.App], [cfclient.Org],
    [cfclient.Space]). *)
Record App := { App_Guid : string; App_SpaceGuid : string; App_Instances : Z; App_Name : string }.
Record Org := { Org_Guid : string; Org_Name : string }.
Record Space := { Space_Guid : string; Space_OrganizationGuid : string; Space_Name : string }.

(** [logical.Alias], [logical.Auth], [logical.Connection] *)
Record logical_Alias := { Alias_Name : string; Metadata : gmap string string }.

Record logical_Auth := {
  InternalData : gmap string Value;
  DisplayName : string;
  Alias : option logical_Alias;
  Policies : list string;
  TTL : Duration;
  MaxTTL : Duration;
  Period : Duration
}.

Record logical_Connection := { RemoteAddr : string }.

(** [logical.Request]: [Connection] and [Auth] are pointers and may be nil. *)
Record logical_Request {storageT : Type} := {
  Storage : storageT;
  Connection : option logical_Connection;
  Auth : option logical_Auth
}.
Arguments logical_Request : clear implicits.

(** [framework.FieldData]; every field of the login path is a string. *)
Definition FieldData := gmap string string.

(** [data.Get(k).(string)]: the value given, or the zero value of the type. *)
Definition data_Get (data : FieldData) (k : string) : string := default "" (data !! k).

(** [*logical.Response] *)
Inductive logical_Response : Type :=
  | ErrorResponse (text : string)
  | AuthResponse (auth : logical_Auth)
  | ResolveRoleResponse (roleName : string).

(** What a handler call comes to: the pair it returns, or a panic on a nil
    pointer. *)
Inductive outcome : Type :=
  | Returned (resp : option logical_Response) (err : option error)
  | Panic.

(** [return logical.ErrorResponse(text), nil] *)
Definition reject (text : string) : outcome := Returned (Some (ErrorResponse text)) None.
(** [return nil, err] *)
Definition fail (err : error) : outcome := Returned None (Some err).
(** [return &logical.Response{Auth: auth}, nil] *)
Definition grant (auth : logical_Auth) : outcome := Returned (Some (AuthResponse auth)) None.

(** A call that may panic before it returns. *)
Inductive exec (A : Type) : Type :=
  | Done (a : A)
  | Panics.
Arguments Done {A} a.
Arguments Panics {A}.

(** The fields of [backend] that login and renewal touch. *)
Record backend {clientT : Type} := {
  cfClient : option clientT;
  cfClientTainted : bool
}.
Arguments backend : clear implicits.

Definition taint {clientT} (b : backend clientT) : backend clientT :=
  {| cfClient := cfClient b; cfClientTainted := true |}.

(** ** Collaborators

    Storage access, the certificate and signature routines, the platform
    client and the library calls.  A Go pair [(x, err)] is a pair here, and a
    pointer that the handlers test or dereference is an [option]. *)
Record Deps {storageT clientT certT cidrT : Type} := {
  getRole : storageT -> string -> option (RoleEntry cidrT) * option error;
  getConfig : storageT -> option Configuration * option error;
  RemoteAddrIsOk : string -> list cidrT -> bool;
  TimeFormat : string;
  BashTimeFormat : string;
  time_Parse : string -> string -> Time * option error;
  Time_String : Time -> string;
  ExtractCertificates : string -> certT * certT * option error;
  Verify : string -> SignatureData -> certT * option error;
  Validate : list string -> certT -> certT -> certT -> option error;
  NewCFCertificateFromx509 : certT -> option CFCertificate * option error;
  NewCFCertificate : string -> string -> string -> string -> string -> option CFCertificate * option error;
  getCFClientOrRefresh : backend clientT -> Configuration -> backend clientT * (clientT * option error);
  AppByGuid : clientT -> string -> App * option error;
  GetOrgByGuid : clientT -> string -> Org * option error;
  GetSpaceByGuid : clientT -> string -> Space * option error;
  PopulateTokenAuth : RoleEntry cidrT -> logical_Auth -> logical_Auth;
  ParseIP : string -> net.IP;
  fmt_q : string -> string
}.
Arguments Deps : clear implicits.

(** ** Constraint matcher *)

Definition meetsBoundConstraints (certValue : string) (constraints : list string) : bool :=
  if (length constraints =? 0)%nat then true
  else strutil.StrListContains constraints certValue.

(** ** The handlers of path_login.go *)

(** The dynamic type of the [from] argument of [getOrErr]. *)
Inductive interface_map : Type :=
  | MapStringAny (m : gmap string Value)
  | MapStringString (m : gmap string string)
  | OtherType.

(** [time.Time{}], counted from the Unix epoch. *)
Definition Time_zero : Time := -62135596800 * Second.

(** int64 arithmetic wraps around. *)
Definition wrap64 (n : Z) : Z := (n + 2 ^ 63) mod 2 ^ 64 - 2 ^ 63.
Definition max_int64 : Z := 2 ^ 63 - 1.

Section Handlers.
Context {storageT clientT certT cidrT : Type}.
Variable D : Deps storageT clientT certT cidrT.

Definition matchesIPAddress (remoteAddr : string) (certIP : net.IP) : bool :=
  let parts := strings.Split remoteAddr "/"%char in
  let reqIPAddr := ParseIP D (default "" (parts !! 0%nat)) in
  if net.Equal certIP reqIPAddr then true else false.

(** Tries ISO 8601, then the format Bash prints by default. *)
Definition parseTime (signingTime : string) : Time * option error :=
  let '(parsed, err) := time_Parse D (TimeFormat D) signingTime in
  match err with
  | None => (parsed, None)
  | Some _ =>
      let '(parsed, err) := time_Parse D (BashTimeFormat D) signingTime in
      match err with
      | None => (parsed, None)
      | Some _ => (Time_zero, Some (ErrMsg ("couldn't parse " +:+ signingTime)))
      end
  end.

(** Pulls a string from a map. *)
Definition getOrErr (fieldName : string) (from : interface_map) : string * option error :=
  match from with
  | MapStringAny givenMap =>
      match givenMap !! fieldName with
      | None =>
          ("", Some (ErrMsg ("unable to retrieve " +:+ fmt_q D fieldName +:+ " during renewal")))
      | Some vIfc =>
          let v := match vIfc with VString s => s | _ => "" end in
          if is_empty v then
            ("", Some (ErrMsg ("unable to retrieve " +:+ fmt_q D fieldName
                               +:+ " during renewal, not a string")))
          else (v, None)
      end
  | MapStringString givenMap =>
      match givenMap !! fieldName with
      | None =>
          ("", Some (ErrMsg ("unable to retrieve " +:+ fmt_q D fieldName +:+ " during renewal")))
      | Some v => (v, None)
      end
  | OtherType =>
      ("", Some (ErrMsg ("unrecognized type for structure containing " +:+ fieldName)))
  end.

(** The checks of [validate] once [cfCert] is known not to be nil. *)
Definition validate_cert (client : clientT) (role : RoleEntry cidrT)
    (cfCert : CFCertificate) (reqConnRemoteAddr : string) : option error :=
  if negb (DisableIPMatching role)
     && negb (matchesIPAddress reqConnRemoteAddr (ParseIP D (IPAddress cfCert))) then
    Some (errors_New "no matching IP address")
  else if negb (meetsBoundConstraints (InstanceID cfCert) (BoundInstanceIDs role)) then
    Some (ErrMsg ("instance ID " +:+ InstanceID cfCert
                  +:+ " doesn't match role constraints of " +:+ fmt_strings (BoundInstanceIDs role)))
  else if negb (meetsBoundConstraints (AppID cfCert) (BoundAppIDs role)) then
    Some (ErrMsg ("app ID " +:+ AppID cfCert
                  +:+ " doesn't match role constraints of " +:+ fmt_strings (BoundAppIDs role)))
  else if negb (meetsBoundConstraints (OrgID cfCert) (BoundOrgIDs role)) then
    Some (ErrMsg ("org ID " +:+ OrgID cfCert
                  +:+ " doesn't match role constraints of " +:+ fmt_strings (BoundOrgIDs role)))
  else if negb (meetsBoundConstraints (SpaceID cfCert) (BoundSpaceIDs role)) then
    Some (ErrMsg ("space ID " +:+ SpaceID cfCert
                  +:+ " doesn't match role constraints of " +:+ fmt_strings (BoundSpaceIDs role)))
  else
  (* Check everything we can using the app ID. *)
  let '(app, err) := AppByGuid D client (AppID cfCert) in
  match err with Some err => Some err | None =>
  if negb (String.eqb (App_Guid app) (AppID cfCert)) then
    Some (ErrMsg ("cert app ID " +:+ AppID cfCert
                  +:+ " doesn't match API's expected one of " +:+ App_Guid app))
  else if negb (String.eqb (App_SpaceGuid app) (SpaceID cfCert)) then
    Some (ErrMsg ("cert space ID " +:+ SpaceID cfCert
                  +:+ " doesn't match API's expected one of " +:+ App_SpaceGuid app))
  else if App_Instances app <=? 0 then
    Some (errors_New "app doesn't have any live instances")
  else
  (* Check everything we can using the org ID. *)
  let '(org, err) := GetOrgByGuid D client (OrgID cfCert) in
  match err with Some err => Some err | None =>
  if negb (String.eqb (Org_Guid org) (OrgID cfCert)) then
    Some (ErrMsg ("cert org ID " +:+ OrgID cfCert
                  +:+ " doesn't match API's expected one of " +:+ Org_Guid org))
  else
  (* Check everything we can using the space ID. *)
  let '(space, err) := GetSpaceByGuid D client (SpaceID cfCert) in
  match err with Some err => Some err | None =>
  if negb (String.eqb (Space_Guid space) (SpaceID cfCert)) then
    Some (ErrMsg ("cert space ID " +:+ SpaceID cfCert
                  +:+ " doesn't match API's expected one of " +:+ Space_Guid space))
  else if negb (String.eqb (Space_OrganizationGuid space) (OrgID cfCert)) then
    Some (ErrMsg ("cert org ID " +:+ OrgID cfCert
                  +:+ " doesn't match API's expected one of " +:+ Space_OrganizationGuid space))
  else None
  end end end.

(** [validate]: its first statement reads a field of [cfCert], whichever
    way [DisableIPMatching] is set, so a nil [cfCert] panics there. *)
Definition validate (client : clientT) (role : RoleEntry cidrT)
    (cfCert : option CFCertificate) (reqConnRemoteAddr : string) : exec (option error) :=
  match cfCert with
  | None => Panics
  | Some cfCert => Done (validate_cert client role cfCert reqConnRemoteAddr)
  end.

Definition getOrgName (client : clientT) (cfCert : option CFCertificate) : exec (string * option error) :=
  match cfCert with
  | None => Panics
  | Some cfCert =>
      let '(org, err) := GetOrgByGuid D client (OrgID cfCert) in
      match err with
      | Some err => Done ("", Some err)
      | None => Done (Org_Name org, None)
      end
  end.

Definition getAppName (client : clientT) (cfCert : option CFCertificate) : exec (string * option error) :=
  match cfCert with
  | None => Panics
  | Some cfCert =>
      let '(app, err) := AppByGuid D client (AppID cfCert) in
      match err with
      | Some err => Done ("", Some err)
      | None => Done (App_Name app, None)
      end
  end.

Definition getSpaceName (client : clientT) (cfCert : option CFCertificate) : exec (string * option error) :=
  match cfCert with
  | None => Panics
  | Some cfCert =>
      let '(space, err) := GetSpaceByGuid D client (SpaceID cfCert) in
      match err with
      | Some err => Done ("", Some err)
      | None => Done (Space_Name space, None)
      end
  end.

(** [resolveRole] *)
Definition resolveRole (req : logical_Request storageT) (data : FieldData) : outcome :=
  let roleName := data_Get data "role" in
  if is_empty roleName then reject "role is required" else
  let '(role, err) := getRole D (Storage req) roleName in
  match err with Some err => fail err | None =>
  match role with
  | None => reject ("invalid role name " +:+ fmt_q D roleName)
  | Some _ => Returned (Some (ResolveRoleResponse roleName)) None
  end end.

(** The two messages of the time-window check. *)
Definition too_old_message (signingTime timeReceived : Time) (config : Configuration) : string :=
  "request is too old; signed at " +:+ Time_String D signingTime
  +:+ " but received request at " +:+ Time_String D timeReceived
  +:+ "; allowable seconds old is " +:+ fmt_d (Z.quot (LoginMaxSecNotBefore config) Second).

Definition too_new_message (signingTime timeReceived : Time) (config : Configuration) : string :=
  "request is too far in the future; signed at " +:+ Time_String D signingTime
  +:+ " but received request at " +:+ Time_String D timeReceived
  +:+ "; allowable seconds in the future is " +:+ fmt_d (Z.quot (LoginMaxSecNotAfter config) Second).

(** The second half of [operationLoginUpdate], from the extraction of the
    certificates to the response: what runs once the signing time lies in
    the window.  Its arguments are the local variables of the handler. *)
Definition operationLoginUpdate_verify (b : backend clientT) (req : logical_Request storageT)
    (role : RoleEntry cidrT) (roleName signature cfInstanceCertContents : string)
    (signingTime : Time) (config : Configuration) : backend clientT * outcome :=
  let '(intermediateCert, identityCert, err) := ExtractCertificates D cfInstanceCertContents in
  match err with Some err => (b, reject (Error err)) | None =>
  (* The private key that signed must match the identity certificate. *)
  let '(signingCert, err) :=
    Verify D signature {| SigningTime := signingTime; Role := roleName;
                          CFInstanceCertContents := cfInstanceCertContents |} in
  match err with Some err => (b, reject (Error err)) | None =>
  (* Make sure the identity/signing cert was actually issued by our CA. *)
  match Validate D (IdentityCACertificates config) intermediateCert identityCert signingCert with
  | Some err => (b, reject (Error err))
  | None =>
  (* Read CF's identity fields from the certificate. *)
  let '(cfCert, err) := NewCFCertificateFromx509 D signingCert in
  match err with Some err => (b, fail err) | None =>
  let '(b, (client, err)) := getCFClientOrRefresh D b config in
  match err with Some err => (b, reject (Error err)) | None =>
  match Connection req with None => (b, Panic) | Some conn =>
  match validate client role cfCert (RemoteAddr conn) with
  | Panics => (b, Panic)
  | Done (Some err) => (b, reject (Error err))
  | Done None =>
  match getOrgName client cfCert with Panics => (b, Panic) | Done (orgName, err) =>
  match err with Some err => (b, fail err) | None =>
  match getAppName client cfCert with Panics => (b, Panic) | Done (appName, err) =>
  match err with Some err => (b, fail err) | None =>
  match getSpaceName client cfCert with Panics => (b, Panic) | Done (spaceName, err) =>
  match err with Some err => (b, fail err) | None =>
  match cfCert with None => (b, Panic) | Some cfCert =>
  (* Everything checks out. *)
  let auth :=
    {| InternalData :=
         <["role" := VString roleName]>
           (<["instance_id" := VString (InstanceID cfCert)]>
              (<["ip_address" := VString (IPAddress cfCert)]> ∅));
       DisplayName := InstanceID cfCert;
       Alias := Some
         {| Alias_Name := AppID cfCert;
            Metadata :=
              <["org_id" := OrgID cfCert]>
                (<["app_id" := AppID cfCert]>
                   (<["space_id" := SpaceID cfCert]>
                      (<["org_name" := orgName]>
                         (<["app_name" := appName]>
                            (<["space_name" := spaceName]> ∅))))) |};
       Policies := [];
       TTL := 0;
       MaxTTL := 0;
       Period := 0 |} in
  let auth := PopulateTokenAuth D role auth in
  (b, grant auth)
  end end end end end end end end end end end end end end.

(** [operationLoginUpdate].  [timeReceived] is the reading of the clock taken
    by the first statement; the result is the backend after the call and
    what the call came to.  Logging and the read lock are left out. *)
Definition operationLoginUpdate (b : backend clientT) (timeReceived : Time)
    (req : logical_Request storageT) (data : FieldData) : backend clientT * outcome :=
  let roleName := data_Get data "role" in
  if is_empty roleName then (b, reject "'role-name' is required") else
  (* Ensure the cf certificate meets the role's constraints. *)
  let '(role, err) := getRole D (Storage req) roleName in
  match err with Some err => (b, fail err) | None =>
  match role with None => (b, fail (errors_New "no matching role")) | Some role =>
  if (0 <? length (TokenBoundCIDRs role))%nat
     && match Connection req with
        | None => true
        | Some conn => negb (RemoteAddrIsOk D (RemoteAddr conn) (TokenBoundCIDRs role))
        end
  then (b, fail ErrPermissionDenied) else
  let signature := data_Get data "signature" in
  if is_empty signature then (b, reject "'signature' is required") else
  let cfInstanceCertContents := data_Get data "cf_instance_cert" in
  if is_empty cfInstanceCertContents then (b, reject "'cf_instance_cert' is required") else
  let signingTimeRaw := data_Get data "signing_time" in
  if is_empty signingTimeRaw then (b, reject "'signing_time' is required") else
  let '(signingTime, err) := parseTime signingTimeRaw in
  match err with Some err => (b, reject (Error err)) | None =>
  let '(config, err) := getConfig D (Storage req) in
  match err with Some err => (b, fail err) | None =>
  match config with
  | None => (b, fail (errors_New "no CA is configured for verifying client certificates"))
  | Some config =>
  (* Ensure the time it was signed isn't too far in the past or future. *)
  let oldestAllowableSigningTime :=
    Time_Add timeReceived (wrap64 (-1 * LoginMaxSecNotBefore config)) in
  let furthestFutureAllowableSigningTime :=
    Time_Add timeReceived (LoginMaxSecNotAfter config) in
  if Time_Before signingTime oldestAllowableSigningTime then
    (b, reject (too_old_message signingTime timeReceived config))
  else if Time_After signingTime furthestFutureAllowableSigningTime then
    (b, reject (too_new_message signingTime timeReceived config))
  else
  operationLoginUpdate_verify b req role roleName signature cfInstanceCertContents
    signingTime config
  end end end end end.

(** [req.Auth] after the three assignments of a successful renewal. *)
Definition renewed (auth : logical_Auth) (role : RoleEntry cidrT) : logical_Auth :=
  {| InternalData := InternalData auth;
     DisplayName := DisplayName auth;
     Alias := Alias auth;
     Policies := Policies auth;
     TTL := TokenTTL role;
     MaxTTL := TokenMaxTTL role;
     Period := TokenPeriod role |}.

Definition with_Auth (req : logical_Request storageT) (auth : logical_Auth) : logical_Request storageT :=
  {| Storage := Storage req; Connection := Connection req; Auth := Some auth |}.

(** The second half of [pathLoginRenew], from the reconstruction of the
    certificate on: what runs once the six stored fields are extracted. *)
Definition pathLoginRenew_validate (b : backend clientT) (req : logical_Request storageT)
    (config : Configuration) (role : RoleEntry cidrT) (auth : logical_Auth)
    (instanceID orgID spaceID appID ipAddr : string)
    : backend clientT * logical_Request storageT * outcome :=
  (* Reconstruct the certificate and ensure it still meets all constraints. *)
  let '(cfCert, err) := NewCFCertificate D instanceID orgID spaceID appID ipAddr in
  let '(b, (client, err)) := getCFClientOrRefresh D b config in
  match err with Some err => (b, req, reject (Error err)) | None =>
  match Connection req with None => (b, req, Panic) | Some conn =>
  match validate client role cfCert (RemoteAddr conn) with
  | Panics => (b, req, Panic)
  | Done (Some err) =>
      (* taint the client on error so that it will be refreshed on the next login attempt *)
      (taint b, req, reject (Error err))
  | Done None =>
      let auth := renewed auth role in
      (b, with_Auth req auth, grant auth)
  end end end.

(** [pathLoginRenew].  The response points at the auth object of the
    request, which the handler updates in place: the result carries the
    backend and the request as the call leaves them. *)
Definition pathLoginRenew (b : backend clientT) (req : logical_Request storageT) (data : FieldData)
    : backend clientT * logical_Request storageT * outcome :=
  let '(config, err) := getConfig D (Storage req) in
  match err with Some err => (b, req, fail err) | None =>
  match config with
  | None => (b, req, fail (errors_New "no configuration is available for reaching the CF API"))
  | Some config =>
  match Auth req with None => (b, req, Panic) | Some auth =>
  let '(roleName, err) := getOrErr "role" (MapStringAny (InternalData auth)) in
  match err with Some err => (b, req, fail err) | None =>
  let '(role, err) := getRole D (Storage req) roleName in
  match err with Some err => (b, req, fail err) | None =>
  match role with None => (b, req, fail (errors_New "no matching role")) | Some role =>
  let '(instanceID, err) := getOrErr "instance_id" (MapStringAny (InternalData auth)) in
  match err with Some err => (b, req, fail err) | None =>
  let '(ipAddr, err) := getOrErr "ip_address" (MapStringAny (InternalData auth)) in
  match err with Some err => (b, req, fail err) | None =>
  match Alias auth with None => (b, req, Panic) | Some alias =>
  let '(orgID, err) := getOrErr "org_id" (MapStringString (Metadata alias)) in
  match err with Some err => (b, req, fail err) | None =>
  let '(spaceID, err) := getOrErr "space_id" (MapStringString (Metadata alias)) in
  match err with Some err => (b, req, fail err) | None =>
  let '(appID, err) := getOrErr "app_id" (MapStringString (Metadata alias)) in
  match err with Some err => (b, req, fail err) | None =>
  pathLoginRenew_validate b req config role auth instanceID orgID spaceID appID ipAddr
  end end end end end end end end end end end end.

End Handlers.

(** ** Vocabulary of the statements *)

(** Whether byte [c] occurs in [s]. *)
Fixpoint has_byte (c : ascii) (s : string) : bool :=
  match s with
  | EmptyString => false
  | String c' rest => Ascii.eqb c' c || has_byte c rest
  end.

(** A certificate that differs in its IP address only. *)
Definition with_IPAddress (cfCert : CFCertificate) (ip : string) : CFCertificate :=
  {| InstanceID := InstanceID cfCert; AppID := AppID cfCert; SpaceID := SpaceID cfCert;
     OrgID := OrgID cfCert; IPAddress := ip |}.

(** The same collaborators, but for the reconstruction of the certificate. *)
Definition with_NewCFCertificate {storageT clientT certT cidrT}
    (D : Deps storageT clientT certT cidrT)
    (f : string -> string -> string -> string -> string -> option CFCertificate * option error)
    : Deps storageT clientT certT cidrT :=
  {| getRole := getRole D; getConfig := getConfig D; RemoteAddrIsOk := RemoteAddrIsOk D;
     TimeFormat := TimeFormat D; BashTimeFormat := BashTimeFormat D;
     time_Parse := time_Parse D; Time_String := Time_String D;
     ExtractCertificates := ExtractCertificates D; Verify := Verify D; Validate := Validate D;
     NewCFCertificateFromx509 := NewCFCertificateFromx509 D;
     NewCFCertificate := f;
     getCFClientOrRefresh := getCFClientOrRefresh D;
     AppByGuid := AppByGuid D; GetOrgByGuid := GetOrgByGuid D; GetSpaceByGuid := GetSpaceByGuid D;
     PopulateTokenAuth := PopulateTokenAuth D; ParseIP := ParseIP D; fmt_q := fmt_q D |}.

(** The request gets as far as the time-window check of
    [operationLoginUpdate]: the role resolves, the CIDR guard lets the
    request through, the three fields are given, the signing time parses to
    [signingTime] and the configuration [config] is stored. *)
Definition reaches_window {storageT clientT certT cidrT}
    (D : Deps storageT clientT certT cidrT) (req : logical_Request storageT) (data : FieldData)
    (role : RoleEntry cidrT) (signingTime : Time) (config : Configuration) : Prop :=
  is_empty (data_Get data "role") = false
  /\ getRole D (Storage req) (data_Get data "role") = (Some role, None)
  /\ (0 <? length (TokenBoundCIDRs role))%nat
     && match Connection req with
        | None => true
        | Some conn => negb (RemoteAddrIsOk D (RemoteAddr conn) (TokenBoundCIDRs role))
        end = false
  /\ is_empty (data_Get data "signature") = false
  /\ is_empty (data_Get data "cf_instance_cert") = false
  /\ is_empty (data_Get data "signing_time") = false
  /\ parseTime D (data_Get data "signing_time") = (signingTime, None)
  /\ getConfig D (Storage req) = (Some config, None).

(** The signing time lies in the window, as the two tests of the handler
    see it. *)
Definition in_window (timeReceived signingTime : Time) (config : Configuration) : Prop :=
  timeReceived - LoginMaxSecNotBefore config <= signingTime
  <= timeReceived + LoginMaxSecNotAfter config.

(** The steps between the window and the call of [validate] all succeed:
    the bundle yields its certificates, the signature verifies, the chain
    validates, the identity [cfCert] is read from the signing certificate
    and the platform client [client] is obtained, leaving the backend [b']. *)
Definition reaches_validate {storageT clientT certT cidrT}
    (D : Deps storageT clientT certT cidrT) (b : backend clientT) (data : FieldData)
    (signingTime : Time) (config : Configuration)
    (cfCert : option CFCertificate) (b' : backend clientT) (client : clientT) : Prop :=
  exists intermediateCert identityCert signingCert,
    ExtractCertificates D (data_Get data "cf_instance_cert")
      = (intermediateCert, identityCert, None)
    /\ Verify D (data_Get data "signature")
         {| SigningTime := signingTime; Role := data_Get data "role";
            CFInstanceCertContents := data_Get data "cf_instance_cert" |}
       = (signingCert, None)
    /\ Validate D (IdentityCACertificates config) intermediateCert identityCert signingCert = None
    /\ NewCFCertificateFromx509 D signingCert = (cfCert, None)
    /\ getCFClientOrRefresh D b config = (b', (client, None)).

(** The renewal request gets as far as the extraction of the alias
    metadata: configuration and role are stored, and the three fields of the
    internal data are extracted. *)
Definition internal_data_extracted {storageT clientT certT cidrT}
    (D : Deps storageT clientT certT cidrT) (req : logical_Request storageT)
    (auth : logical_Auth) (config : Configuration) (role : RoleEntry cidrT)
    (instanceID ipAddr : string) : Prop :=
  exists roleName,
    getConfig D (Storage req) = (Some config, None)
    /\ Auth req = Some auth
    /\ getOrErr D "role" (MapStringAny (InternalData auth)) = (roleName, None)
    /\ getRole D (Storage req) roleName = (Some role, None)
    /\ getOrErr D "instance_id" (MapStringAny (InternalData auth)) = (instanceID, None)
    /\ getOrErr D "ip_address" (MapStringAny (InternalData auth)) = (ipAddr, None).

(** The auth object that [operationLoginUpdate] assembles before it calls
    [PopulateTokenAuth] (lines 230-248). *)
Definition login_auth (roleName : string) (cfCert : CFCertificate)
    (orgName appName spaceName : string) : logical_Auth :=
  {| InternalData :=
       <["role" := VString roleName]>
         (<["instance_id" := VString (InstanceID cfCert)]>
            (<["ip_address" := VString (IPAddress cfCert)]> ∅));
     DisplayName := InstanceID cfCert;
     Alias := Some
       {| Alias_Name := AppID cfCert;
          Metadata :=
            <["org_id" := OrgID cfCert]>
              (<["app_id" := AppID cfCert]>
                 (<["space_id" := SpaceID cfCert]>
                    (<["org_name" := orgName]>
                       (<["app_name" := appName]>
                          (<["space_name" := spaceName]> ∅))))) |};
     Policies := [];
     TTL := 0;
     MaxTTL := 0;
     Period := 0 |}.

(** The five tests that [validate] makes before it turns to the platform. *)
Definition local_constraints_met {storageT clientT certT cidrT}
    (D : Deps storageT clientT certT cidrT) (role : RoleEntry cidrT)
    (cfCert : CFCertificate) (reqConnRemoteAddr : string) : bool :=
  (DisableIPMatching role
   || matchesIPAddress D reqConnRemoteAddr (ParseIP D (IPAddress cfCert)))
  && meetsBoundConstraints (InstanceID cfCert) (BoundInstanceIDs role)
  && meetsBoundConstraints (AppID cfCert) (BoundAppIDs role)
  && meetsBoundConstraints (OrgID cfCert) (BoundOrgIDs role)
  && meetsBoundConstraints (SpaceID cfCert) (BoundSpaceIDs role).

(** The platform bears out the certificate: the three lookups succeed and
    the records they return agree with it. *)
Definition platform_agrees {storageT clientT certT cidrT}
    (D : Deps storageT clientT certT cidrT) (client : clientT) (cfCert : CFCertificate) : Prop :=
  (exists app, AppByGuid D client (AppID cfCert) = (app, None)
               /\ App_Guid app = AppID cfCert
               /\ App_SpaceGuid app = SpaceID cfCert
               /\ 0 < App_Instances app)
  /\ (exists org, GetOrgByGuid D client (OrgID cfCert) = (org, None)
                  /\ Org_Guid org = OrgID cfCert)
  /\ (exists space, GetSpaceByGuid D client (SpaceID cfCert) = (space, None)
                    /\ Space_Guid space = SpaceID cfCert
                    /\ Space_OrganizationGuid space = OrgID cfCert).

(** Two sets of collaborators that agree on everything [pathLoginRenew]
    calls: storage, [%q], the reconstruction of the certificate, the client
    lookup, the platform and [net.ParseIP]. *)
Definition same_for_renewal {storageT clientT certT cidrT}
    (D D' : Deps storageT clientT certT cidrT) : Prop :=
  getConfig D' = getConfig D
  /\ getRole D' = getRole D
  /\ fmt_q D' = fmt_q D
  /\ NewCFCertificate D' = NewCFCertificate D
  /\ getCFClientOrRefresh D' = getCFClientOrRefresh D
  /\ AppByGuid D' = AppByGuid D
  /\ GetOrgByGuid D' = GetOrgByGuid D
  /\ GetSpaceByGuid D' = GetSpaceByGuid D
  /\ ParseIP D' = ParseIP D.

(** The identity that [operationLoginUpdate] reads from the request: the
    certificate that [NewCFCertificateFromx509] makes of the signing
    certificate that [signatures.Verify] returns for the fields given. *)
Definition login_certificate {storageT clientT certT cidrT}
    (D : Deps storageT clientT certT cidrT) (data : FieldData) : option CFCertificate :=
  fst (NewCFCertificateFromx509 D
         (fst (Verify D (data_Get data "signature")
                 {| SigningTime := fst (parseTime D (data_Get data "signing_time"));
                    Role := data_Get data "role";
                    CFInstanceCertContents := data_Get data "cf_instance_cert" |}))).

(** ** A small deployment

    One instance of the collaborators, on which the handlers run: roles and
    configuration in a record, the platform as three tables, certificates
    standing for the identity they carry, and times written as a count of
    seconds. *)

Module Fixture.

Record store := {
  roles : gmap string (RoleEntry ipv4.Block);
  config : option Configuration
}.

Record platform := {
  apps : gmap string App;
  orgs : gmap string Org;
  spaces : gmap string Space
}.

Definition lookup_or {A} (zero : A) (what : string) (table : gmap string A) (guid : string)
    : A * option error :=
  match table !! guid with
  | Some x => (x, None)
  | None => (zero, Some (ErrMsg (what +:+ " " +:+ guid +:+ " not found")))
  end.

(** A bundle of certificates is known by name. *)
Definition bundles : gmap string CFCertificate :=
  {[ "bundle-1" :=
       {| InstanceID := "instance-1"; AppID := "app-1"; SpaceID := "space-1";
          OrgID := "org-1"; IPAddress := "10.0.0.5" |} ]}.

Definition sign (role contents : string) : string := "signed:" +:+ role +:+ ":" +:+ contents.

Definition seconds (s : string) : Time * option error :=
  match ipv4.number_go s 0 with
  | Some n => if is_empty s then (Time_zero, Some (ErrMsg "empty time")) else (n * Second, None)
  | None => (Time_zero, Some (ErrMsg "not a time"))
  end.

Definition any_empty (l : list string) : bool := existsb is_empty l.

Definition deps (cf : platform) : Deps store platform (option CFCertificate) ipv4.Block :=
  {| getRole := fun st name => (roles st !! name, None);
     getConfig := fun st => (config st, None);
     RemoteAddrIsOk := ipv4.RemoteAddrIsOk;
     TimeFormat := "2006-01-02T15:04:05Z";
     BashTimeFormat := "Mon Jan 2 15:04:05 MST 2006";
     time_Parse := fun layout s =>
       if String.eqb layout "2006-01-02T15:04:05Z" then seconds s
       else (Time_zero, Some (ErrMsg "not a time"));
     Time_String := fun t => pretty t;
     ExtractCertificates := fun contents =>
       match bundles !! contents with
       | Some c => (Some c, Some c, None)
       | None => (None, None, Some (ErrMsg "no certificate found"))
       end;
     Verify := fun signature data =>
       if String.eqb signature (sign (Role data) (CFInstanceCertContents data))
       then (bundles !! CFInstanceCertContents data, None)
       else (None, Some (ErrMsg "signature does not match"));
     Validate := fun cas intermediate identity signing =>
       if (length cas =? 0)%nat then Some (ErrMsg "no CA certificates") else None;
     NewCFCertificateFromx509 := fun cert => (cert, None);
     NewCFCertificate := fun instanceID orgID spaceID appID ipAddress =>
       if any_empty [instanceID; orgID; spaceID; appID; ipAddress]
       then (None, Some (ErrMsg "missing identity field"))
       else (Some {| InstanceID := instanceID; AppID := appID; SpaceID := spaceID;
                     OrgID := orgID; IPAddress := ipAddress |}, None);
     getCFClientOrRefresh := fun b cfg =>
       match cfClient b with
       | Some c =>
           if cfClientTainted b
           then ({| cfClient := Some cf; cfClientTainted := false |}, (cf, None))
           else (b, (c, None))
       | None => ({| cfClient := Some cf; cfClientTainted := false |}, (cf, None))
       end;
     AppByGuid := fun c => lookup_or {| App_Guid := ""; App_SpaceGuid := ""; App_Instances := 0; App_Name := "" |} "app" (apps c);
     GetOrgByGuid := fun c => lookup_or {| Org_Guid := ""; Org_Name := "" |} "org" (orgs c);
     GetSpaceByGuid := fun c => lookup_or {| Space_Guid := ""; Space_OrganizationGuid := ""; Space_Name := "" |} "space" (spaces c);
     PopulateTokenAuth := fun role auth =>
       {| InternalData := InternalData auth; DisplayName := DisplayName auth;
          Alias := Alias auth; Policies := Policies auth;
          TTL := TokenTTL role; MaxTTL := TokenMaxTTL role; Period := TokenPeriod role |};
     ParseIP := ipv4.ParseIP;
     fmt_q := fun s => dquote +:+ s +:+ dquote |}.

Definition cf : platform :=
  {| apps := {[ "app-1" := {| App_Guid := "app-1"; App_SpaceGuid := "space-1";
                              App_Instances := 2; App_Name := "billing" |} ]};
     orgs := {[ "org-1" := {| Org_Guid := "org-1"; Org_Name := "finance" |} ]};
     spaces := {[ "space-1" := {| Space_Guid := "space-1"; Space_OrganizationGuid := "org-1";
                                  Space_Name := "production" |} ]} |}.

Definition unmatched_role : RoleEntry ipv4.Block :=
  {| BoundAppIDs := []; BoundSpaceIDs := []; BoundOrgIDs := []; BoundInstanceIDs := [];
     DisableIPMatching := true; TokenBoundCIDRs := [];
     TokenTTL := 3600 * Second; TokenMaxTTL := 7200 * Second; TokenPeriod := 0 |}.

Definition open_role : RoleEntry ipv4.Block :=
  {| BoundAppIDs := ["app-1"]; BoundSpaceIDs := []; BoundOrgIDs := []; BoundInstanceIDs := [];
     DisableIPMatching := false; TokenBoundCIDRs := [];
     TokenTTL := 3600 * Second; TokenMaxTTL := 7200 * Second; TokenPeriod := 0 |}.

Definition fenced_role : RoleEntry ipv4.Block :=
  {| BoundAppIDs := ["app-1"]; BoundSpaceIDs := []; BoundOrgIDs := []; BoundInstanceIDs := [];
     DisableIPMatching := false;
     TokenBoundCIDRs := [ {| ipv4.network := (10, 0, 0, 0); ipv4.prefix := 8 |} ];
     TokenTTL := 3600 * Second; TokenMaxTTL := 7200 * Second; TokenPeriod := 0 |}.

Definition settings : Configuration :=
  {| IdentityCACertificates := ["ca-1"];
     LoginMaxSecNotBefore := 300 * Second;
     LoginMaxSecNotAfter := 60 * Second |}.

Definition st : store :=
  {| roles := {[ "open" := open_role; "fenced" := fenced_role ]};
     config := Some settings |}.

Definition idle : backend platform := {| cfClient := None; cfClientTainted := false |}.

Definition login_data (role signing_time : string) : FieldData :=
  {[ "role" := role; "cf_instance_cert" := "bundle-1";
     "signing_time" := signing_time; "signature" := sign role "bundle-1" ]}.

(** A login that names its role and gives nothing else. *)
Definition role_only (role : string) : FieldData := {[ "role" := role ]}.

Definition request (conn : option logical_Connection) (auth : option logical_Auth)
    : logical_Request store :=
  {| Storage := st; Connection := conn; Auth := auth |}.

Definition from (addr : string) : option logical_Connection := Some {| RemoteAddr := addr |}.

(** The auth object a login through [open_role] issues. *)
Definition issued : logical_Auth :=
  {| InternalData :=
       {[ "role" := VString "open"; "instance_id" := VString "instance-1";
          "ip_address" := VString "10.0.0.5" ]};
     DisplayName := "instance-1";
     Alias := Some {| Alias_Name := "app-1";
                      Metadata := {[ "org_id" := "org-1"; "app_id" := "app-1";
                                     "space_id" := "space-1"; "org_name" := "finance";
                                     "app_name" := "billing"; "space_name" := "production" ]} |};
     Policies := ["default"];
     TTL := 60 * Second; MaxTTL := 120 * Second; Period := 0 |}.

(** Stored renewal data with the given maps. *)
Definition stored (internal : gmap string Value) (metadata : gmap string string) : logical_Auth :=
  {| InternalData := internal; DisplayName := DisplayName issued;
     Alias := Some {| Alias_Name := "app-1"; Metadata := metadata |};
     Policies := Policies issued; TTL := TTL issued; MaxTTL := MaxTTL issued;
     Period := Period issued |}.

Definition issued_metadata : gmap string string :=
  {[ "org_id" := "org-1"; "app_id" := "app-1"; "space_id" := "space-1" ]}.

(** A reconstruction that hands back the certificate and always reports an
    error as well. *)
Definition complaining (instanceID orgID spaceID appID ipAddress : string)
    : option CFCertificate * option error :=
  (fst (NewCFCertificate (deps cf) instanceID orgID spaceID appID ipAddress),
   Some (ErrMsg "reconstruction failed")).

(** Alias metadata whose three identifiers are empty. *)
Definition blank_metadata : gmap string string :=
  {[ "org_id" := ""; "app_id" := ""; "space_id" := "" ]}.

Definition ready : backend platform := {| cfClient := Some cf; cfClientTainted := false |}.

Definition cert1 : CFCertificate :=
  {| InstanceID := "instance-1"; AppID := "app-1"; SpaceID := "space-1";
     OrgID := "org-1"; IPAddress := "10.0.0.5" |}.

(** What a login through [open_role] with "bundle-1" is granted. *)
Definition granted : logical_Auth :=
  PopulateTokenAuth (deps cf) open_role
    (login_auth "open" cert1 "finance" "billing" "production").

(** Collaborators that agree with [deps cf] on what renewal calls and turn
    down every address, time, bundle, signature and chain. *)
Definition sealed : Deps store platform (option CFCertificate) ipv4.Block :=
  {| getRole := getRole (deps cf);
     getConfig := getConfig (deps cf);
     RemoteAddrIsOk := fun _ _ => false;
     TimeFormat := "";
     BashTimeFormat := "";
     time_Parse := fun _ _ => (Time_zero, Some (ErrMsg "not a time"));
     Time_String := fun _ => "";
     ExtractCertificates := fun _ => (None, None, Some (ErrMsg "no certificate found"));
     Verify := fun _ _ => (None, Some (ErrMsg "signature does not match"));
     Validate := fun _ _ _ _ => Some (ErrMsg "no CA certificates");
     NewCFCertificateFromx509 := fun _ => (None, Some (ErrMsg "no certificate"));
     NewCFCertificate := NewCFCertificate (deps cf);
     getCFClientOrRefresh := getCFClientOrRefresh (deps cf);
     AppByGuid := AppByGuid (deps cf);
     GetOrgByGuid := GetOrgByGuid (deps cf);
     GetSpaceByGuid := GetSpaceByGuid (deps cf);
     PopulateTokenAuth := fun _ auth => auth;
     ParseIP := ParseIP (deps cf);
     fmt_q := fmt_q (deps cf) |}.

(** A role that admits no application the deployment knows. *)
Definition other_role : RoleEntry ipv4.Block :=
  {| BoundAppIDs := ["app-2"]; BoundSpaceIDs := []; BoundOrgIDs := []; BoundInstanceIDs := [];
     DisableIPMatching := true; TokenBoundCIDRs := [];
     TokenTTL := 3600 * Second; TokenMaxTTL := 7200 * Second; TokenPeriod := 0 |}.

End Fixture.

(** ** Properties *)

Lemma StrListContains_In (haystack : list string) (needle : string) :
  strutil.StrListContains haystack needle = true <-> In needle haystack.
Proof.
  induction haystack as [|item rest IH]; simpl.
  - split; [discriminate | tauto].
  - destruct (String.eqb_spec item needle) as [->|Hne].
    + split; auto.
    + rewrite IH. split; [tauto|]. intros [Heq|Hin]; [contradiction | assumption].
Qed.


(** *** Strings *)

Lemma Split_before_sep (sep : ascii) (host suffix : string) :
  has_byte sep host = false ->
  strings.Split (host +:+ String sep suffix) sep = host :: strings.Split suffix sep.
Proof.
  induction host as [|c host IH]; simpl; intros Hfree.
  - now rewrite Ascii.eqb_refl.
  - apply orb_false_iff in Hfree as [Hc Hhost].
    rewrite Hc, (IH Hhost). reflexivity.
Qed.

Lemma Split_no_sep (sep : ascii) (host : string) :
  has_byte sep host = false -> strings.Split host sep = [host].
Proof.
  induction host as [|c host IH]; simpl; intros Hfree; [reflexivity|].
  apply orb_false_iff in Hfree as [Hc Hhost].
  rewrite Hc, (IH Hhost). reflexivity.
Qed.

Lemma Split_not_nil (sep : ascii) (s : string) : strings.Split s sep <> [].
Proof.
  destruct s as [|c s]; simpl; [discriminate|].
  destruct (Ascii.eqb c sep); [discriminate|].
  destruct (strings.Split s sep); discriminate.
Qed.

Lemma prefix_append (p s : string) : String.prefix p (p +:+ s) = true.
Proof.
  induction p as [|c p IH]; simpl.
  - now destruct s.
  - destruct (Ascii.ascii_dec c c) as [_|Hne]; [exact IH | contradiction].
Qed.

Lemma has_substring_here (needle s : string) : has_substring needle (needle +:+ s) = true.
Proof.
  destruct needle as [|c needle]; destruct s as [|d s]; simpl;
    try reflexivity;
    apply orb_true_iff; left;
    (destruct (Ascii.ascii_dec c c) as [_|Hne]; [apply prefix_append | contradiction]).
Qed.

Lemma has_substring_append (needle p s : string) :
  has_substring needle s = true -> has_substring needle (p +:+ s) = true.
Proof.
  intros Hs. induction p as [|c p IH]; simpl; [exact Hs|].
  apply orb_true_iff. right. exact IH.
Qed.

(** *** The constraint matcher *)

(** C6. [meetsBoundConstraints] lets every value through an empty list; for
    a list that is not empty it answers true exactly when the value is an
    element of the list, compared by string equality: "app-1" does not meet
    the constraint "app-12". *)
Theorem meetsBoundConstraints_exact_membership :
  (forall value : string, meetsBoundConstraints value [] = true)
  /\ (forall (value : string) (constraints : list string),
        constraints <> [] ->
        (meetsBoundConstraints value constraints = true <-> In value constraints))
  /\ meetsBoundConstraints "app-1" ["app-12"] = false.
Proof.
  split; [reflexivity|]. split; [|reflexivity].
  intros value [|c constraints] Hne; [contradiction|].
  unfold meetsBoundConstraints. cbn [length Nat.eqb].
  apply StrListContains_In.
Qed.

Lemma meetsBoundConstraints_exact_membership_witness :
  ["app-0"; "app-1"] <> []
  /\ (meetsBoundConstraints "app-1" ["app-0"; "app-1"] = true
      <-> In "app-1" ["app-0"; "app-1"]).
Proof.
  split; [discriminate|].
  apply (proj1 (proj2 meetsBoundConstraints_exact_membership)). discriminate.
Defined.

Section Properties.
Context {storageT clientT certT cidrT : Type}.
Variable D : Deps storageT clientT certT cidrT.

Lemma matchesIPAddress_first_part (remoteAddr : string) (certIP : net.IP) :
  matchesIPAddress D remoteAddr certIP
  = net.Equal certIP (ParseIP D (default "" (strings.Split remoteAddr "/"%char !! 0%nat))).
Proof. unfold matchesIPAddress. now destruct (net.Equal _ _). Qed.

Lemma validate_cert_ip_disabled (client : clientT) (role : RoleEntry cidrT)
    (cfCert : CFCertificate) (addr addr' ip' : string) :
  DisableIPMatching role = true ->
  validate_cert D client role cfCert addr
  = validate_cert D client role (with_IPAddress cfCert ip') addr'.
Proof. intros Hoff. unfold validate_cert. rewrite Hoff. reflexivity. Qed.

(** C7. [matchesIPAddress] compares the certificate's IP with the remote
    address cut at its first "/": an address with a subnet suffix matches
    exactly when the address without it does, so "10.0.0.5/32" matches
    10.0.0.5 and "10.0.0.5" does not match 10.0.0.6.  For a role with
    [DisableIPMatching] set, [validate] never looks at the remote address
    or at the certificate's IP address. *)
Theorem matchesIPAddress_strips_subnet :
  (forall (host suffix : string) (certIP : net.IP),
      has_byte "/" host = false ->
      matchesIPAddress D (host +:+ "/" +:+ suffix) certIP = net.Equal certIP (ParseIP D host)
      /\ matchesIPAddress D host certIP = net.Equal certIP (ParseIP D host))
  /\ matchesIPAddress (Fixture.deps Fixture.cf) "10.0.0.5/32" (net.IPv4 10 0 0 5) = true
  /\ matchesIPAddress (Fixture.deps Fixture.cf) "10.0.0.5" (net.IPv4 10 0 0 6) = false
  /\ (forall (client : clientT) (role : RoleEntry cidrT) (cfCert : CFCertificate)
        (addr addr' ip' : string),
        DisableIPMatching role = true ->
        validate D client role (Some cfCert) addr
        = validate D client role (Some (with_IPAddress cfCert ip')) addr').
Proof.
  split; [|split; [reflexivity|split; [reflexivity|]]].
  - intros host suffix certIP Hfree. rewrite !matchesIPAddress_first_part.
    change (host +:+ "/" +:+ suffix) with (host +:+ String "/" suffix).
    rewrite (Split_before_sep _ _ _ Hfree), (Split_no_sep _ _ Hfree). split; reflexivity.
  - intros client role cfCert addr addr' ip' Hoff. unfold validate.
    f_equal. now apply validate_cert_ip_disabled.
Qed.

(** *** Login: role and CIDR guard *)

(** C1, as the handler has it.  A login whose role name is not empty and
    resolves to no stored role ends with a nil response and the error "no
    matching role": a hard error, not an error response.  The backend is
    left as it was. *)
Theorem login_unknown_role_is_hard_error (b : backend clientT) (timeReceived : Time)
    (req : logical_Request storageT) (data : FieldData) :
  is_empty (data_Get data "role") = false ->
  getRole D (Storage req) (data_Get data "role") = (None, None) ->
  operationLoginUpdate D b timeReceived req data
  = (b, Returned None (Some (errors_New "no matching role")))
  /\ Error (errors_New "no matching role") = "no matching role".
Proof.
  intros Hname Hrole. split; [|reflexivity].
  unfold operationLoginUpdate. rewrite Hname, Hrole. reflexivity.
Qed.

(** C3. Against a role that declares bound CIDRs, a login without
    connection information, or from an address that the CIDRs do not admit,
    ends with [logical.ErrPermissionDenied] and a nil response.  Neither the
    other fields of the request nor any collaborator but the role lookup and
    the CIDR test has a say: the guard comes before the presence checks on
    signature, cf_instance_cert and signing_time and before every
    certificate and signature routine. *)
Theorem login_cidr_guard_denies (b : backend clientT) (timeReceived : Time)
    (req : logical_Request storageT) (data : FieldData) (role : RoleEntry cidrT) :
  is_empty (data_Get data "role") = false ->
  getRole D (Storage req) (data_Get data "role") = (Some role, None) ->
  TokenBoundCIDRs role <> [] ->
  (Connection req = None
   \/ exists conn, Connection req = Some conn
                   /\ RemoteAddrIsOk D (RemoteAddr conn) (TokenBoundCIDRs role) = false) ->
  operationLoginUpdate D b timeReceived req data = (b, Returned None (Some ErrPermissionDenied)).
Proof.
  intros Hname Hrole Hcidrs Hconn.
  unfold operationLoginUpdate. rewrite Hname, Hrole.
  destruct (TokenBoundCIDRs role) as [|cidr cidrs] eqn:Ebound; [contradiction|].
  cbn [length Nat.ltb Nat.leb andb].
  destruct Hconn as [-> | (conn & -> & ->)]; reflexivity.
Qed.

(** *** Login: time window *)

Lemma wrap64_negate (d : Duration) : 0 <= d <= max_int64 -> wrap64 (-1 * d) = - d.
Proof.
  unfold wrap64, max_int64. intros Hd.
  replace (-1 * d + 2 ^ 63) with (2 ^ 63 - d) by lia.
  rewrite Z.mod_small by lia. lia.
Qed.

Lemma login_window_step (b : backend clientT) (timeReceived : Time)
    (req : logical_Request storageT) (data : FieldData) (role : RoleEntry cidrT)
    (signingTime : Time) (config : Configuration) :
  reaches_window D req data role signingTime config ->
  operationLoginUpdate D b timeReceived req data
  = if Time_Before signingTime
         (Time_Add timeReceived (wrap64 (-1 * LoginMaxSecNotBefore config)))
    then (b, reject (too_old_message D signingTime timeReceived config))
    else if Time_After signingTime (Time_Add timeReceived (LoginMaxSecNotAfter config))
    then (b, reject (too_new_message D signingTime timeReceived config))
    else operationLoginUpdate_verify D b req role (data_Get data "role")
           (data_Get data "signature") (data_Get data "cf_instance_cert") signingTime config.
Proof.
  intros (Hname & Hrole & Hguard & Hsig & Hcert & Hraw & Hparse & Hconfig).
  unfold operationLoginUpdate.
  rewrite Hname, Hrole, Hguard, Hsig, Hcert, Hraw, Hparse, Hconfig. reflexivity.
Qed.

(** C2. Once a login reaches the time-window check, with tolerances that are
    not negative, the signing time [t] is let through to the certificate
    checks exactly when [now - before <= t <= now + after], [now] being the
    clock reading taken on entry; both ends of the window are let through.
    A signing time before the window is rejected with a message that ends
    with the seconds of [LoginMaxSecNotBefore], one after the window with a
    message that ends with the seconds of [LoginMaxSecNotAfter]. *)
Theorem login_time_window (b : backend clientT) (now : Time)
    (req : logical_Request storageT) (data : FieldData) (role : RoleEntry cidrT)
    (t : Time) (config : Configuration) :
  reaches_window D req data role t config ->
  0 <= LoginMaxSecNotBefore config <= max_int64 ->
  0 <= LoginMaxSecNotAfter config ->
  let before := LoginMaxSecNotBefore config in
  let after := LoginMaxSecNotAfter config in
  let let_through :=
    operationLoginUpdate_verify D b req role (data_Get data "role")
      (data_Get data "signature") (data_Get data "cf_instance_cert") t config in
  (now - before <= t <= now + after ->
     operationLoginUpdate D b now req data = let_through)
  /\ (t = now - before -> operationLoginUpdate D b now req data = let_through)
  /\ (t = now + after -> operationLoginUpdate D b now req data = let_through)
  /\ (t < now - before ->
        operationLoginUpdate D b now req data
        = (b, reject ("request is too old; signed at " +:+ Time_String D t
                      +:+ " but received request at " +:+ Time_String D now
                      +:+ "; allowable seconds old is " +:+ fmt_d (Z.quot before Second))))
  /\ (now + after < t ->
        operationLoginUpdate D b now req data
        = (b, reject ("request is too far in the future; signed at " +:+ Time_String D t
                      +:+ " but received request at " +:+ Time_String D now
                      +:+ "; allowable seconds in the future is "
                      +:+ fmt_d (Z.quot after Second)))).
Proof.
  intros Hreach Hbefore Hafter before after let_through.
  assert (Hin : now - before <= t <= now + after ->
                operationLoginUpdate D b now req data = let_through).
  { intros [Hlo Hhi]. rewrite (login_window_step _ _ _ _ _ _ _ Hreach).
    rewrite (wrap64_negate _ Hbefore). unfold Time_Before, Time_After, Time_Add.
    fold before after.
    destruct (Z.ltb_spec t (now + - before)); [lia|].
    destruct (Z.ltb_spec (now + after) t); [lia|]. reflexivity. }
  split; [exact Hin|]. split; [intros ->; apply Hin; subst before after; lia|].
  split; [intros ->; apply Hin; subst before after; lia|].
  split.
  - intros Hold. rewrite (login_window_step _ _ _ _ _ _ _ Hreach).
    rewrite (wrap64_negate _ Hbefore). unfold Time_Before, Time_Add. fold before.
    destruct (Z.ltb_spec t (now + - before)); [reflexivity | lia].
  - intros Hnew. rewrite (login_window_step _ _ _ _ _ _ _ Hreach).
    rewrite (wrap64_negate _ Hbefore). unfold Time_Before, Time_After, Time_Add.
    fold before after.
    destruct (Z.ltb_spec t (now + - before)); [lia|].
    destruct (Z.ltb_spec (now + after) t); [reflexivity | lia].
Qed.

(** *** Login: the call of validate *)

Lemma login_verify_step (b b' : backend clientT) (req : logical_Request storageT)
    (data : FieldData) (role : RoleEntry cidrT) (signingTime : Time) (config : Configuration)
    (cfCert : option CFCertificate) (client : clientT) :
  reaches_validate D b data signingTime config cfCert b' client ->
  Connection req = None ->
  operationLoginUpdate_verify D b req role (data_Get data "role")
    (data_Get data "signature") (data_Get data "cf_instance_cert") signingTime config
  = (b', Panic).
Proof.
  intros (intermediateCert & identityCert & signingCert
          & Hextract & Hverify & Hchain & Hcert & Hclient) Hconn.
  unfold operationLoginUpdate_verify.
  rewrite Hextract, Hverify, Hchain, Hcert, Hclient, Hconn. reflexivity.
Qed.

Lemma login_verify_never_grants_without_connection (b : backend clientT)
    (req : logical_Request storageT) (role : RoleEntry cidrT)
    (roleName signature contents : string) (signingTime : Time) (config : Configuration)
    (auth : logical_Auth) :
  Connection req = None ->
  snd (operationLoginUpdate_verify D b req role roleName signature contents signingTime config)
  <> grant auth.
Proof.
  intros Hconn. unfold operationLoginUpdate_verify. rewrite Hconn.
  repeat case_match; cbn; discriminate.
Qed.

(** C8. [operationLoginUpdate] reads [req.Connection.RemoteAddr] for the
    call of [validate] without a test.  Against a role with no bound CIDRs
    the guard on the connection is skipped, so a request without connection
    information that passes every step up to that call ends in a nil
    dereference: not in a rejection, not in an error.  And whatever the
    steps before come to, such a request is never granted. *)
Theorem login_without_connection_panics (b b' : backend clientT) (now : Time)
    (req : logical_Request storageT) (data : FieldData) (role : RoleEntry cidrT)
    (t : Time) (config : Configuration) (cfCert : option CFCertificate) (client : clientT) :
  TokenBoundCIDRs role = [] ->
  Connection req = None ->
  reaches_window D req data role t config ->
  0 <= LoginMaxSecNotBefore config <= max_int64 ->
  in_window now t config ->
  reaches_validate D b data t config cfCert b' client ->
  operationLoginUpdate D b now req data = (b', Panic)
  /\ (forall (b0 : backend clientT) (now0 : Time) (data0 : FieldData) (auth : logical_Auth),
        snd (operationLoginUpdate D b0 now0 req data0) <> grant auth).
Proof.
  intros Hcidrs Hconn Hreach Hbefore [Hlo Hhi] Hvalidate. split.
  - rewrite (login_window_step _ _ _ _ _ _ _ Hreach), (wrap64_negate _ Hbefore).
    unfold Time_Before, Time_After, Time_Add.
    destruct (Z.ltb_spec t (now + - LoginMaxSecNotBefore config)); [lia|].
    destruct (Z.ltb_spec (now + LoginMaxSecNotAfter config) t); [lia|].
    now apply login_verify_step with (cfCert := cfCert) (client := client).
  - intros b0 now0 data0 auth. unfold operationLoginUpdate.
    repeat (case_match; try (cbn; discriminate)).
    now apply login_verify_never_grants_without_connection.
Qed.

(** *** Renewal: extraction of the stored fields *)

Lemma getOrErr_any_missing (fieldName : string) (m : gmap string Value) :
  m !! fieldName = None ->
  getOrErr D fieldName (MapStringAny m)
  = ("", Some (ErrMsg ("unable to retrieve " +:+ fmt_q D fieldName +:+ " during renewal"))).
Proof. intros Hm. unfold getOrErr. now rewrite Hm. Qed.

Lemma getOrErr_string_missing (fieldName : string) (m : gmap string string) :
  m !! fieldName = None ->
  getOrErr D fieldName (MapStringString m)
  = ("", Some (ErrMsg ("unable to retrieve " +:+ fmt_q D fieldName +:+ " during renewal"))).
Proof. intros Hm. unfold getOrErr. now rewrite Hm. Qed.

Lemma getOrErr_string_present (fieldName v : string) (m : gmap string string) :
  m !! fieldName = Some v -> getOrErr D fieldName (MapStringString m) = (v, None).
Proof. intros Hm. unfold getOrErr. now rewrite Hm. Qed.

Lemma getOrErr_any_empty (fieldName : string) (m : gmap string Value) :
  m !! fieldName = Some (VString "") ->
  getOrErr D fieldName (MapStringAny m)
  = ("", Some (ErrMsg ("unable to retrieve " +:+ fmt_q D fieldName
                       +:+ " during renewal, not a string"))).
Proof. intros Hm. unfold getOrErr. now rewrite Hm. Qed.

Lemma not_a_string_in_message (quoted : string) :
  has_substring "not a string"
    ("unable to retrieve " +:+ quoted +:+ " during renewal, not a string") = true.
Proof.
  apply has_substring_append, has_substring_append.
  change " during renewal, not a string" with (" during renewal, " +:+ "not a string").
  apply has_substring_append. apply (has_substring_here "not a string" "").
Qed.

(** A renewal in which one of the six extractions reports an error ends
    with that or an earlier hard error. *)
Lemma renew_extraction_error (b : backend clientT) (req : logical_Request storageT)
    (data : FieldData) (auth : logical_Auth) :
  Auth req = Some auth ->
  (exists fieldName v err,
      (fieldName = "role" \/ fieldName = "instance_id" \/ fieldName = "ip_address")
      /\ getOrErr D fieldName (MapStringAny (InternalData auth)) = (v, Some err))
  \/ (exists alias fieldName v err,
        Alias auth = Some alias
        /\ (fieldName = "org_id" \/ fieldName = "space_id" \/ fieldName = "app_id")
        /\ getOrErr D fieldName (MapStringString (Metadata alias)) = (v, Some err)) ->
  exists err, snd (pathLoginRenew D b req data) = Returned None (Some err).
Proof.
  intros Hauth Hfail. unfold pathLoginRenew. rewrite Hauth.
  destruct (getConfig D (Storage req)) as [[config|] [e|]]; try (eexists; reflexivity).
  destruct (getOrErr D "role" _) as [roleName [e|]] eqn:Erole; try (eexists; reflexivity).
  destruct (getRole D (Storage req) roleName) as [[role|] [e|]]; try (eexists; reflexivity).
  destruct (getOrErr D "instance_id" _) as [instanceID [e|]] eqn:Einstance;
    try (eexists; reflexivity).
  destruct (getOrErr D "ip_address" _) as [ipAddr [e|]] eqn:Eip; try (eexists; reflexivity).
  destruct Hfail as [(fieldName & v & err & Hname & Hget)
                    |(alias & fieldName & v & err & Halias & Hname & Hget)].
  - destruct Hname as [-> | [-> | ->]]; congruence.
  - rewrite Halias.
    destruct (getOrErr D "org_id" _) as [orgID [e|]] eqn:Eorg; try (eexists; reflexivity).
    destruct (getOrErr D "space_id" _) as [spaceID [e|]] eqn:Espace; try (eexists; reflexivity).
    destruct (getOrErr D "app_id" _) as [appID [e|]] eqn:Eapp; try (eexists; reflexivity).
    destruct Hname as [-> | [-> | ->]]; congruence.
Qed.

(** C4. In a renewal, a required field that the stored maps do not hold
    (role, instance_id or ip_address in the internal data; org_id, space_id
    or app_id in the alias metadata) makes the handler return a nil response
    and an error: a hard error, not an error response.  A stored instance_id
    that is the empty string is such an error as well, with a message that
    contains "not a string". *)
Theorem renew_missing_field_is_hard_error (b : backend clientT)
    (req : logical_Request storageT) (data : FieldData) (auth : logical_Auth) :
  Auth req = Some auth ->
  (forall fieldName : string,
      fieldName = "role" \/ fieldName = "instance_id" \/ fieldName = "ip_address" ->
      InternalData auth !! fieldName = None ->
      exists err, snd (pathLoginRenew D b req data) = Returned None (Some err))
  /\ (forall (alias : logical_Alias) (fieldName : string),
        Alias auth = Some alias ->
        fieldName = "org_id" \/ fieldName = "space_id" \/ fieldName = "app_id" ->
        Metadata alias !! fieldName = None ->
        exists err, snd (pathLoginRenew D b req data) = Returned None (Some err))
  /\ (InternalData auth !! "instance_id" = Some (VString "") ->
      (exists msg,
          getOrErr D "instance_id" (MapStringAny (InternalData auth)) = ("", Some (ErrMsg msg))
          /\ has_substring "not a string" msg = true)
      /\ exists err,
          snd (pathLoginRenew D b req data) = Returned None (Some err)
          /\ ((exists config roleName role,
                  getConfig D (Storage req) = (Some config, None)
                  /\ getOrErr D "role" (MapStringAny (InternalData auth)) = (roleName, None)
                  /\ getRole D (Storage req) roleName = (Some role, None)) ->
              has_substring "not a string" (Error err) = true)).
Proof.
  intros Hauth. split; [|split].
  - intros fieldName Hname Hmissing.
    apply renew_extraction_error with (auth := auth); [exact Hauth|]. left.
    exists fieldName, "". eexists. split; [exact Hname|].
    now apply getOrErr_any_missing.
  - intros alias fieldName Halias Hname Hmissing.
    apply renew_extraction_error with (auth := auth); [exact Hauth|]. right.
    exists alias, fieldName, "". eexists. split; [exact Halias|]. split; [exact Hname|].
    now apply getOrErr_string_missing.
  - intros Hempty. pose proof (getOrErr_any_empty _ _ Hempty) as Hget. split.
    + eexists. split; [exact Hget|]. apply not_a_string_in_message.
    + destruct (renew_extraction_error b req data auth Hauth) as [err Herr].
      { left. exists "instance_id", "". eexists. split; [tauto | exact Hget]. }
      exists err. split; [exact Herr|].
      intros (config & roleName & role & Hconfig & Hrole & Hresolve).
      revert Herr. unfold pathLoginRenew.
      rewrite Hconfig, Hauth, Hrole, Hresolve, Hget. cbn.
      intros [= <-]. apply not_a_string_in_message.
Qed.

(** C10. The test for an empty value belongs to the branch of [getOrErr]
    for maps of untyped values.  On a map of strings a field that is present
    and empty is returned without error, where the same field in a map of
    untyped values is the "not a string" error.  So whatever strings the
    alias metadata holds under org_id, space_id and app_id, empty ones
    included, the renewal goes on to reconstruct the certificate from them. *)
Theorem getOrErr_string_map_keeps_empty :
  (forall (fieldName : string) (m : gmap string string),
      m !! fieldName = Some "" -> getOrErr D fieldName (MapStringString m) = ("", None))
  /\ (forall (fieldName : string) (m : gmap string Value),
        m !! fieldName = Some (VString "") ->
        exists msg, getOrErr D fieldName (MapStringAny m) = ("", Some (ErrMsg msg))
                    /\ has_substring "not a string" msg = true)
  /\ (forall (b : backend clientT) (req : logical_Request storageT) (data : FieldData)
        (auth : logical_Auth) (config : Configuration) (role : RoleEntry cidrT)
        (instanceID ipAddr : string) (alias : logical_Alias) (orgID spaceID appID : string),
        internal_data_extracted D req auth config role instanceID ipAddr ->
        Alias auth = Some alias ->
        Metadata alias !! "org_id" = Some orgID ->
        Metadata alias !! "space_id" = Some spaceID ->
        Metadata alias !! "app_id" = Some appID ->
        pathLoginRenew D b req data
        = pathLoginRenew_validate D b req config role auth instanceID orgID spaceID appID ipAddr).
Proof.
  split; [|split].
  - intros fieldName m Hm. now apply getOrErr_string_present.
  - intros fieldName m Hm. eexists. split; [now apply getOrErr_any_empty|].
    apply not_a_string_in_message.
  - intros b req data auth config role instanceID ipAddr alias orgID spaceID appID
      (roleName & Hconfig & Hauth & Hrole & Hresolve & Hinstance & Hip) Halias Horg Hspace Happ.
    unfold pathLoginRenew.
    rewrite Hconfig, Hauth, Hrole, Hresolve, Hinstance, Hip, Halias.
    rewrite (getOrErr_string_present _ _ _ Horg), (getOrErr_string_present _ _ _ Hspace),
      (getOrErr_string_present _ _ _ Happ).
    reflexivity.
Qed.

(** *** Renewal: the outcome of validate *)

(** C5. When a renewal reaches [validate] and [validate] reports an error,
    the handler sets [cfClientTainted] and answers with an error response
    that carries the message of the error.  When [validate] reports none,
    the backend stays as the client lookup left it, taint flag included, and
    the response carries the auth object of the request, the very object the
    request now holds, changed in its TTL, MaxTTL and Period, which are
    those of the role, and in nothing else. *)
Theorem renew_taints_on_failed_validation (b b' : backend clientT)
    (req : logical_Request storageT) (data : FieldData) (auth : logical_Auth)
    (config : Configuration) (role : RoleEntry cidrT) (alias : logical_Alias)
    (instanceID ipAddr orgID spaceID appID : string) (client : clientT)
    (conn : logical_Connection) :
  internal_data_extracted D req auth config role instanceID ipAddr ->
  Alias auth = Some alias ->
  getOrErr D "org_id" (MapStringString (Metadata alias)) = (orgID, None) ->
  getOrErr D "space_id" (MapStringString (Metadata alias)) = (spaceID, None) ->
  getOrErr D "app_id" (MapStringString (Metadata alias)) = (appID, None) ->
  getCFClientOrRefresh D b config = (b', (client, None)) ->
  Connection req = Some conn ->
  let cfCert := fst (NewCFCertificate D instanceID orgID spaceID appID ipAddr) in
  (forall err : error,
      validate D client role cfCert (RemoteAddr conn) = Done (Some err) ->
      pathLoginRenew D b req data
      = ({| cfClient := cfClient b'; cfClientTainted := true |}, req,
         Returned (Some (ErrorResponse (Error err))) None))
  /\ (validate D client role cfCert (RemoteAddr conn) = Done None ->
      exists auth',
        pathLoginRenew D b req data
        = (b', {| Storage := Storage req; Connection := Connection req; Auth := Some auth' |},
           Returned (Some (AuthResponse auth')) None)
        /\ TTL auth' = TokenTTL role
        /\ MaxTTL auth' = TokenMaxTTL role
        /\ Period auth' = TokenPeriod role
        /\ InternalData auth' = InternalData auth
        /\ DisplayName auth' = DisplayName auth
        /\ Alias auth' = Alias auth
        /\ Policies auth' = Policies auth).
Proof.
  intros (roleName & Hconfig & Hauth & Hrole & Hresolve & Hinstance & Hip)
    Halias Horg Hspace Happ Hclient Hconn cfCert.
  assert (Hstep : pathLoginRenew D b req data
                  = pathLoginRenew_validate D b req config role auth
                      instanceID orgID spaceID appID ipAddr).
  { unfold pathLoginRenew.
    rewrite Hconfig, Hauth, Hrole, Hresolve, Hinstance, Hip, Halias, Horg, Hspace, Happ.
    reflexivity. }
  rewrite Hstep. unfold pathLoginRenew_validate. subst cfCert.
  destruct (NewCFCertificate D instanceID orgID spaceID appID ipAddr) as [cfCert e].
  unfold with_Auth. rewrite Hclient, Hconn. cbn [fst]. split.
  - intros err ->. reflexivity.
  - intros ->. exists (renewed auth role). repeat split.
Qed.

(** *** Renewal: the reconstruction of the certificate *)

Lemma renew_validate_same_certificate (b : backend clientT) (req : logical_Request storageT)
    (config : Configuration) (role : RoleEntry cidrT) (auth : logical_Auth)
    (instanceID orgID spaceID appID ipAddr : string)
    (f : string -> string -> string -> string -> string -> option CFCertificate * option error) :
  fst (f instanceID orgID spaceID appID ipAddr)
  = fst (NewCFCertificate D instanceID orgID spaceID appID ipAddr) ->
  pathLoginRenew_validate (with_NewCFCertificate D f) b req config role auth
    instanceID orgID spaceID appID ipAddr
  = pathLoginRenew_validate D b req config role auth instanceID orgID spaceID appID ipAddr.
Proof.
  unfold pathLoginRenew_validate. cbn [NewCFCertificate with_NewCFCertificate].
  destruct (f instanceID orgID spaceID appID ipAddr) as [cfCert e],
    (NewCFCertificate D instanceID orgID spaceID appID ipAddr) as [cfCert' e'].
  cbn [fst]. intros ->. reflexivity.
Qed.

(** C9. The error that [models.NewCFCertificate] returns in
    [pathLoginRenew] is overwritten by the next statement and never read: a
    reconstruction that returns the same certificate pointer with any other
    error, none or some, leaves the whole renewal as it is.  A failed
    reconstruction alone does not make the renewal fail. *)
Theorem renew_ignores_reconstruction_error (b : backend clientT)
    (req : logical_Request storageT) (data : FieldData)
    (f : string -> string -> string -> string -> string -> option CFCertificate * option error) :
  (forall instanceID orgID spaceID appID ipAddr : string,
      fst (f instanceID orgID spaceID appID ipAddr)
      = fst (NewCFCertificate D instanceID orgID spaceID appID ipAddr)) ->
  pathLoginRenew (with_NewCFCertificate D f) b req data = pathLoginRenew D b req data.
Proof.
  intros Hsame. unfold pathLoginRenew.
  change (getOrErr (with_NewCFCertificate D f)) with (getOrErr D).
  cbn [getConfig getRole with_NewCFCertificate].
  repeat (case_match; try reflexivity).
  apply renew_validate_same_certificate, Hsame.
Qed.

(** What a failed reconstruction does lead to: with a nil certificate the
    call of [validate] dereferences it. *)
Lemma renew_nil_certificate_panics (b b' : backend clientT) (req : logical_Request storageT)
    (config : Configuration) (role : RoleEntry cidrT) (auth : logical_Auth)
    (instanceID orgID spaceID appID ipAddr : string) (client : clientT)
    (conn : logical_Connection) :
  fst (NewCFCertificate D instanceID orgID spaceID appID ipAddr) = None ->
  getCFClientOrRefresh D b config = (b', (client, None)) ->
  Connection req = Some conn ->
  pathLoginRenew_validate D b req config role auth instanceID orgID spaceID appID ipAddr
  = (b', req, Panic).
Proof.
  intros Hnil Hclient Hconn. unfold pathLoginRenew_validate.
  destruct (NewCFCertificate D instanceID orgID spaceID appID ipAddr) as [cfCert e].
  cbn [fst] in Hnil. subst cfCert. rewrite Hclient, Hconn. reflexivity.
Qed.

End Properties.

(** ** The statements at work on the small deployment *)

(** C1 as the specification words it fails: the login through a role
    name that no stored role bears is not answered with the error response
    "no matching role". *)
Lemma login_unknown_role_not_error_response :
  getRole (Fixture.deps Fixture.cf) Fixture.st "nope" = (None, None)
  /\ snd (operationLoginUpdate (Fixture.deps Fixture.cf) Fixture.idle (1000 * Second)
            (Fixture.request (Fixture.from "10.0.0.5") None)
            (Fixture.login_data "nope" "900"))
     <> Returned (Some (ErrorResponse "no matching role")) None.
Proof. split; [reflexivity | vm_compute; discriminate]. Qed.

Lemma login_unknown_role_is_hard_error_witness :
  operationLoginUpdate (Fixture.deps Fixture.cf) Fixture.idle (1000 * Second)
    (Fixture.request (Fixture.from "10.0.0.5") None) (Fixture.login_data "nope" "900")
  = (Fixture.idle, Returned None (Some (errors_New "no matching role"))).
Proof.
  apply (login_unknown_role_is_hard_error (Fixture.deps Fixture.cf)); reflexivity.
Defined.

Lemma login_cidr_guard_denies_witness :
  operationLoginUpdate (Fixture.deps Fixture.cf) Fixture.idle (1000 * Second)
    (Fixture.request (Fixture.from "192.168.1.1") None) (Fixture.role_only "fenced")
  = (Fixture.idle, Returned None (Some ErrPermissionDenied)).
Proof.
  apply (login_cidr_guard_denies (Fixture.deps Fixture.cf)) with (role := Fixture.fenced_role).
  - reflexivity.
  - reflexivity.
  - discriminate.
  - right. exists {| RemoteAddr := "192.168.1.1" |}. split; reflexivity.
Defined.

Lemma matchesIPAddress_strips_subnet_witness :
  has_byte "/" "10.0.0.5" = false
  /\ matchesIPAddress (Fixture.deps Fixture.cf) ("10.0.0.5" +:+ "/" +:+ "32") (net.IPv4 10 0 0 5)
     = net.Equal (net.IPv4 10 0 0 5) (ipv4.ParseIP "10.0.0.5")
  /\ DisableIPMatching Fixture.unmatched_role = true
  /\ validate (Fixture.deps Fixture.cf) Fixture.cf Fixture.unmatched_role
       (Fixture.bundles !! "bundle-1") "10.0.0.5"
     = validate (Fixture.deps Fixture.cf) Fixture.cf Fixture.unmatched_role
         (Some {| InstanceID := "instance-1"; AppID := "app-1"; SpaceID := "space-1";
                  OrgID := "org-1"; IPAddress := "172.16.0.1" |}) "192.168.1.1".
Proof.
  split; [reflexivity|]. split.
  - apply (proj1 (matchesIPAddress_strips_subnet (Fixture.deps Fixture.cf))). reflexivity.
  - split; [reflexivity|].
    apply (proj2 (proj2 (proj2 (matchesIPAddress_strips_subnet (Fixture.deps Fixture.cf))))
             Fixture.cf Fixture.unmatched_role
             {| InstanceID := "instance-1"; AppID := "app-1"; SpaceID := "space-1";
                OrgID := "org-1"; IPAddress := "10.0.0.5" |}
             "10.0.0.5" "192.168.1.1" "172.16.0.1").
    reflexivity.
Defined.

Lemma fixture_reaches_window (conn : option logical_Connection) (signing_time : string) (t : Time) :
  Fixture.seconds signing_time = (t, None) ->
  is_empty signing_time = false ->
  reaches_window (Fixture.deps Fixture.cf) (Fixture.request conn None)
    (Fixture.login_data "open" signing_time) Fixture.open_role t Fixture.settings.
Proof.
  intros Hparse Hgiven. unfold reaches_window.
  change (data_Get (Fixture.login_data "open" signing_time) "signing_time") with signing_time.
  repeat split; try reflexivity; try exact Hgiven.
  unfold parseTime. cbn [time_Parse TimeFormat Fixture.deps String.eqb].
  change (String.eqb "2006-01-02T15:04:05Z" "2006-01-02T15:04:05Z") with true.
  cbn iota. rewrite Hparse. reflexivity.
Defined.

Lemma login_time_window_witness :
  operationLoginUpdate (Fixture.deps Fixture.cf) Fixture.idle (1000 * Second)
    (Fixture.request (Fixture.from "10.0.0.5") None) (Fixture.login_data "open" "600")
  = (Fixture.idle,
     reject ("request is too old; signed at 600000000000 but received request at "
             +:+ "1000000000000; allowable seconds old is 300"))
  /\ operationLoginUpdate (Fixture.deps Fixture.cf) Fixture.idle (1000 * Second)
       (Fixture.request (Fixture.from "10.0.0.5") None) (Fixture.login_data "open" "700")
     = operationLoginUpdate_verify (Fixture.deps Fixture.cf) Fixture.idle
         (Fixture.request (Fixture.from "10.0.0.5") None) Fixture.open_role "open"
         (Fixture.sign "open" "bundle-1") "bundle-1" (700 * Second) Fixture.settings.
Proof.
  split.
  - pose proof (login_time_window (Fixture.deps Fixture.cf) Fixture.idle (1000 * Second)
                  (Fixture.request (Fixture.from "10.0.0.5") None)
                  (Fixture.login_data "open" "600") Fixture.open_role (600 * Second)
                  Fixture.settings) as Hwindow.
    cbv zeta in Hwindow.
    destruct Hwindow as (_ & _ & _ & Hold & _).
    + now apply fixture_reaches_window.
    + vm_compute. split; discriminate.
    + vm_compute. discriminate.
    + apply Hold. reflexivity.
  - pose proof (login_time_window (Fixture.deps Fixture.cf) Fixture.idle (1000 * Second)
                  (Fixture.request (Fixture.from "10.0.0.5") None)
                  (Fixture.login_data "open" "700") Fixture.open_role (700 * Second)
                  Fixture.settings) as Hwindow.
    cbv zeta in Hwindow.
    destruct Hwindow as (_ & Hedge & _).
    + now apply fixture_reaches_window.
    + vm_compute. split; discriminate.
    + vm_compute. discriminate.
    + apply Hedge. reflexivity.
Defined.

Lemma login_without_connection_panics_witness :
  operationLoginUpdate (Fixture.deps Fixture.cf) Fixture.idle (1000 * Second)
    (Fixture.request None None) (Fixture.login_data "open" "900")
  = (Fixture.ready, Panic).
Proof.
  apply (login_without_connection_panics (Fixture.deps Fixture.cf) Fixture.idle Fixture.ready
           (1000 * Second) (Fixture.request None None) (Fixture.login_data "open" "900")
           Fixture.open_role (900 * Second) Fixture.settings
           (Fixture.bundles !! "bundle-1") Fixture.cf).
  - reflexivity.
  - reflexivity.
  - now apply fixture_reaches_window.
  - vm_compute. split; discriminate.
  - vm_compute. split; discriminate.
  - exists (Fixture.bundles !! "bundle-1"), (Fixture.bundles !! "bundle-1"),
      (Fixture.bundles !! "bundle-1").
    repeat split; reflexivity.
Defined.

Lemma fixture_internal_data_extracted (conn : option logical_Connection)
    (metadata : gmap string string) :
  internal_data_extracted (Fixture.deps Fixture.cf)
    (Fixture.request conn (Some (Fixture.stored (InternalData Fixture.issued) metadata)))
    (Fixture.stored (InternalData Fixture.issued) metadata)
    Fixture.settings Fixture.open_role "instance-1" "10.0.0.5".
Proof. exists "open". repeat split; reflexivity. Defined.

Lemma renew_missing_field_is_hard_error_witness :
  InternalData (Fixture.stored (delete "instance_id" (InternalData Fixture.issued))
                  Fixture.issued_metadata) !! "instance_id" = None
  /\ exists err,
      snd (pathLoginRenew (Fixture.deps Fixture.cf) Fixture.idle
             (Fixture.request (Fixture.from "10.0.0.5")
                (Some (Fixture.stored (delete "instance_id" (InternalData Fixture.issued))
                         Fixture.issued_metadata)))
             ∅)
      = Returned None (Some err).
Proof.
  split; [reflexivity|].
  apply (proj1 (renew_missing_field_is_hard_error (Fixture.deps Fixture.cf) Fixture.idle
                  (Fixture.request (Fixture.from "10.0.0.5")
                     (Some (Fixture.stored (delete "instance_id" (InternalData Fixture.issued))
                              Fixture.issued_metadata)))
                  ∅ _ eq_refl) "instance_id").
  - right. left. reflexivity.
  - reflexivity.
Defined.

Lemma getOrErr_string_map_keeps_empty_witness :
  getOrErr (Fixture.deps Fixture.cf) "org_id" (MapStringString Fixture.blank_metadata) = ("", None)
  /\ pathLoginRenew (Fixture.deps Fixture.cf) Fixture.idle
       (Fixture.request (Fixture.from "10.0.0.5")
          (Some (Fixture.stored (InternalData Fixture.issued) Fixture.blank_metadata)))
       ∅
     = pathLoginRenew_validate (Fixture.deps Fixture.cf) Fixture.idle
         (Fixture.request (Fixture.from "10.0.0.5")
            (Some (Fixture.stored (InternalData Fixture.issued) Fixture.blank_metadata)))
         Fixture.settings Fixture.open_role
         (Fixture.stored (InternalData Fixture.issued) Fixture.blank_metadata)
         "instance-1" "" "" "" "10.0.0.5".
Proof.
  split.
  - apply (proj1 (getOrErr_string_map_keeps_empty (Fixture.deps Fixture.cf))). reflexivity.
  - apply (proj2 (proj2 (getOrErr_string_map_keeps_empty (Fixture.deps Fixture.cf))))
      with (alias := {| Alias_Name := "app-1"; Metadata := Fixture.blank_metadata |}).
    + apply fixture_internal_data_extracted.
    + reflexivity.
    + reflexivity.
    + reflexivity.
    + reflexivity.
Defined.

Lemma renew_taints_on_failed_validation_witness :
  pathLoginRenew (Fixture.deps Fixture.cf) Fixture.ready
    (Fixture.request (Fixture.from "10.0.0.9")
       (Some (Fixture.stored (InternalData Fixture.issued) Fixture.issued_metadata)))
    ∅
  = ({| cfClient := Some Fixture.cf; cfClientTainted := true |},
     Fixture.request (Fixture.from "10.0.0.9")
       (Some (Fixture.stored (InternalData Fixture.issued) Fixture.issued_metadata)),
     Returned (Some (ErrorResponse "no matching IP address")) None).
Proof.
  pose proof (renew_taints_on_failed_validation (Fixture.deps Fixture.cf)
                Fixture.ready Fixture.ready
                (Fixture.request (Fixture.from "10.0.0.9")
                   (Some (Fixture.stored (InternalData Fixture.issued) Fixture.issued_metadata)))
                ∅ (Fixture.stored (InternalData Fixture.issued) Fixture.issued_metadata)
                Fixture.settings Fixture.open_role
                {| Alias_Name := "app-1"; Metadata := Fixture.issued_metadata |}
                "instance-1" "10.0.0.5" "org-1" "space-1" "app-1" Fixture.cf
                {| RemoteAddr := "10.0.0.9" |}) as Hrenew.
  cbv zeta in Hrenew.
  destruct (Hrenew (fixture_internal_data_extracted _ _)
              eq_refl eq_refl eq_refl eq_refl eq_refl eq_refl) as [Hfailed _].
  apply (Hfailed (ErrMsg "no matching IP address")). reflexivity.
Defined.

Lemma renew_ignores_reconstruction_error_witness :
  snd (NewCFCertificate (with_NewCFCertificate (Fixture.deps Fixture.cf) Fixture.complaining)
         "instance-1" "org-1" "space-1" "app-1" "10.0.0.5")
  = Some (ErrMsg "reconstruction failed")
  /\ pathLoginRenew (with_NewCFCertificate (Fixture.deps Fixture.cf) Fixture.complaining)
       Fixture.ready
       (Fixture.request (Fixture.from "10.0.0.5")
          (Some (Fixture.stored (InternalData Fixture.issued) Fixture.issued_metadata)))
       ∅
     = pathLoginRenew (Fixture.deps Fixture.cf) Fixture.ready
         (Fixture.request (Fixture.from "10.0.0.5")
            (Some (Fixture.stored (InternalData Fixture.issued) Fixture.issued_metadata)))
         ∅.
Proof.
  split; [reflexivity|].
  apply (renew_ignores_reconstruction_error (Fixture.deps Fixture.cf)).
  intros instanceID orgID spaceID appID ipAddr. reflexivity.
Defined.

(** ** Further behaviour of the handlers *)

Lemma is_empty_true (s : string) : is_empty s = true <-> s = "".
Proof. destruct s; simpl; split; congruence. Qed.

Lemma is_empty_false (s : string) : is_empty s = false <-> s <> "".
Proof. destruct s; simpl; split; congruence. Qed.

Section Behaviour.
Context {storageT clientT certT cidrT : Type}.
Variable D : Deps storageT clientT certT cidrT.

(** *** getOrErr *)

(** X1. [getOrErr] succeeds on a map of untyped values exactly when the
    field holds a string that is not empty, on a map of strings exactly when
    the field is present, and on no other structure; what it returns is
    then the stored string, and beside an error it returns the empty
    string. *)
Theorem getOrErr_succeeds_iff (fieldName v : string) :
  (forall m : gmap string Value,
      getOrErr D fieldName (MapStringAny m) = (v, None)
      <-> m !! fieldName = Some (VString v) /\ v <> "")
  /\ (forall m : gmap string string,
        getOrErr D fieldName (MapStringString m) = (v, None) <-> m !! fieldName = Some v)
  /\ getOrErr D fieldName OtherType <> (v, None)
  /\ (forall (from : interface_map) (err : error),
        getOrErr D fieldName from = (v, Some err) -> v = "").
Proof.
  split; [|split; [|split]].
  - intros m. unfold getOrErr. destruct (m !! fieldName) as [[s| | |]|]; cbn.
    + destruct (is_empty s) eqn:Es.
      * apply is_empty_true in Es. split; [discriminate|]. intros [[= ->] Hv]. contradiction.
      * apply is_empty_false in Es. split.
        -- intros [= ->]. split; [reflexivity | assumption].
        -- intros [[= ->] _]. reflexivity.
    + split; [discriminate | intros [[=] _]].
    + split; [discriminate | intros [[=] _]].
    + split; [discriminate | intros [[=] _]].
    + split; [discriminate | intros [[=] _]].
  - intros m. unfold getOrErr. destruct (m !! fieldName) as [s|].
    + split; [intros [= ->] | intros [= ->]]; reflexivity.
    + split; discriminate.
  - discriminate.
  - intros from err. unfold getOrErr.
    destruct from as [m|m|]; [destruct (m !! fieldName) as [[s| | |]|]; cbn
                             |destruct (m !! fieldName) as [s|]|];
      try (destruct (is_empty s)); congruence.
Qed.

(** *** parseTime *)

(** X2. [parseTime] is a chain of two attempts.  It succeeds exactly when
    the signing time parses under the ISO 8601 layout or under the Bash
    layout; where both parse, the ISO reading is the one returned; where
    neither does, the error names the text that was given. *)
Theorem parseTime_fallback (signingTime : string) :
  (snd (parseTime D signingTime) = None
   <-> snd (time_Parse D (TimeFormat D) signingTime) = None
       \/ snd (time_Parse D (BashTimeFormat D) signingTime) = None)
  /\ (snd (time_Parse D (TimeFormat D) signingTime) = None ->
      parseTime D signingTime = (fst (time_Parse D (TimeFormat D) signingTime), None))
  /\ (snd (time_Parse D (TimeFormat D) signingTime) <> None ->
      snd (time_Parse D (BashTimeFormat D) signingTime) = None ->
      parseTime D signingTime = (fst (time_Parse D (BashTimeFormat D) signingTime), None))
  /\ (snd (time_Parse D (TimeFormat D) signingTime) <> None ->
      snd (time_Parse D (BashTimeFormat D) signingTime) <> None ->
      parseTime D signingTime
      = (Time_zero, Some (ErrMsg ("couldn't parse " +:+ signingTime)))).
Proof.
  unfold parseTime.
  destruct (time_Parse D (TimeFormat D) signingTime) as [iso [isoErr|]],
    (time_Parse D (BashTimeFormat D) signingTime) as [bash [bashErr|]]; cbn;
    repeat split; intros; try tauto; try congruence; try (right; reflexivity);
    try (left; reflexivity).
  destruct H; discriminate.
Qed.

(** *** resolveRole *)

(** X3. [resolveRole] answers with a role name exactly when the request
    names a role, the name is not empty and storage holds a role under it;
    the name it answers with is the one requested. *)
Theorem resolveRole_resolves_iff (req : logical_Request storageT) (data : FieldData)
    (roleName : string) :
  resolveRole D req data = Returned (Some (ResolveRoleResponse roleName)) None
  <-> roleName = data_Get data "role"
      /\ roleName <> ""
      /\ exists role, getRole D (Storage req) roleName = (Some role, None).
Proof.
  unfold resolveRole. split.
  - destruct (is_empty (data_Get data "role")) eqn:Ename; [discriminate|].
    destruct (getRole D (Storage req) (data_Get data "role")) as [[role|] [err|]] eqn:Erole;
      try discriminate.
    intros [= <-]. split; [reflexivity|]. split; [now apply is_empty_false|].
    exists role. exact Erole.
  - intros (-> & Hname & role & Hrole). apply is_empty_false in Hname.
    rewrite Hname, Hrole. reflexivity.
Qed.

(** *** matchesIPAddress *)

Lemma Equal_nil_iff (ip : net.IP) : net.Equal ip net.nilIP = true <-> ip = net.nilIP.
Proof.
  destruct ip as [|x ip]; [split; reflexivity|].
  unfold net.Equal, net.nilIP. cbn [length Nat.eqb].
  rewrite andb_false_r. cbn. rewrite andb_false_r. split; discriminate.
Qed.

(** X4. A remote address that [net.ParseIP] does not read becomes the nil
    IP, and the nil IP equals the nil IP alone: such an address matches the
    certificate exactly when the certificate's own IP is nil too, that is,
    when its IP address did not parse either. *)
Theorem matchesIPAddress_unparsed_remote (remoteAddr : string) (certIP : net.IP) :
  ParseIP D (default "" (strings.Split remoteAddr "/"%char !! 0%nat)) = net.nilIP ->
  (matchesIPAddress D remoteAddr certIP = true <-> certIP = net.nilIP).
Proof.
  intros Hnil. unfold matchesIPAddress. rewrite Hnil.
  rewrite <- Equal_nil_iff. destruct (net.Equal certIP net.nilIP); split; congruence.
Qed.

(** *** validate *)

Lemma local_constraints_met_true (role : RoleEntry cidrT) (cfCert : CFCertificate)
    (addr : string) :
  local_constraints_met D role cfCert addr = true
  <-> (negb (DisableIPMatching role)
       && negb (matchesIPAddress D addr (ParseIP D (IPAddress cfCert))) = false)
      /\ negb (meetsBoundConstraints (InstanceID cfCert) (BoundInstanceIDs role)) = false
      /\ negb (meetsBoundConstraints (AppID cfCert) (BoundAppIDs role)) = false
      /\ negb (meetsBoundConstraints (OrgID cfCert) (BoundOrgIDs role)) = false
      /\ negb (meetsBoundConstraints (SpaceID cfCert) (BoundSpaceIDs role)) = false.
Proof.
  unfold local_constraints_met.
  destruct (DisableIPMatching role),
    (matchesIPAddress D addr (ParseIP D (IPAddress cfCert))),
    (meetsBoundConstraints (InstanceID cfCert) (BoundInstanceIDs role)),
    (meetsBoundConstraints (AppID cfCert) (BoundAppIDs role)),
    (meetsBoundConstraints (OrgID cfCert) (BoundOrgIDs role)),
    (meetsBoundConstraints (SpaceID cfCert) (BoundSpaceIDs role)); cbn; intuition congruence.
Qed.

Lemma negb_eqb_false (a b : string) : negb (String.eqb a b) = false <-> a = b.
Proof. destruct (String.eqb_spec a b); cbn; split; congruence. Qed.

Lemma validate_cert_accepts_iff (client : clientT) (role : RoleEntry cidrT)
    (cfCert : CFCertificate) (addr : string) :
  validate_cert D client role cfCert addr = None
  <-> local_constraints_met D role cfCert addr = true /\ platform_agrees D client cfCert.
Proof.
  rewrite local_constraints_met_true. unfold validate_cert, platform_agrees. split.
  - intros Hnone.
    destruct (negb (DisableIPMatching role) && _) eqn:Eip; [discriminate|].
    destruct (negb (meetsBoundConstraints (InstanceID cfCert) _)) eqn:Einstance; [discriminate|].
    destruct (negb (meetsBoundConstraints (AppID cfCert) _)) eqn:Eapp; [discriminate|].
    destruct (negb (meetsBoundConstraints (OrgID cfCert) _)) eqn:Eorg; [discriminate|].
    destruct (negb (meetsBoundConstraints (SpaceID cfCert) _)) eqn:Espace; [discriminate|].
    destruct (AppByGuid D client (AppID cfCert)) as [app [e|]]; [discriminate|].
    destruct (negb (String.eqb (App_Guid app) _)) eqn:Eguid; [discriminate|].
    destruct (negb (String.eqb (App_SpaceGuid app) _)) eqn:Espaceguid; [discriminate|].
    destruct (Z.leb_spec (App_Instances app) 0) as [|Hlive]; [discriminate|].
    destruct (GetOrgByGuid D client (OrgID cfCert)) as [org [e|]]; [discriminate|].
    destruct (negb (String.eqb (Org_Guid org) _)) eqn:Eorgguid; [discriminate|].
    destruct (GetSpaceByGuid D client (SpaceID cfCert)) as [space [e|]]; [discriminate|].
    destruct (negb (String.eqb (Space_Guid space) _)) eqn:Esguid; [discriminate|].
    destruct (negb (String.eqb (Space_OrganizationGuid space) _)) eqn:Esorg; [discriminate|].
    apply negb_eqb_false in Eguid, Espaceguid, Eorgguid, Esguid, Esorg.
    repeat split; eauto 6.
  - intros ((-> & -> & -> & -> & ->)
            & (app & -> & Hguid & Hspaceguid & Hlive)
            & (org & -> & Horgguid)
            & (space & -> & Hsguid & Hsorg)).
    apply negb_eqb_false in Hguid, Hspaceguid, Horgguid, Hsguid, Hsorg.
    rewrite Hguid, Hspaceguid, Horgguid, Hsguid, Hsorg.
    destruct (Z.leb_spec (App_Instances app) 0); [lia | reflexivity].
Qed.

(** X5. [validate] returns no error exactly when the certificate is not
    nil, passes the five local tests (the IP match unless the role disables
    it, and the four bound lists) and the platform bears it out: the
    application is found under its ID, lies in the certificate's space and
    has a live instance; the organization is found under its ID; the space
    is found under its ID and lies in the certificate's organization. *)
Theorem validate_accepts_iff (client : clientT) (role : RoleEntry cidrT)
    (cfCert : option CFCertificate) (addr : string) :
  validate D client role cfCert addr = Done None
  <-> exists c, cfCert = Some c
                /\ local_constraints_met D role c addr = true
                /\ platform_agrees D client c.
Proof.
  unfold validate. destruct cfCert as [c|].
  - split.
    + intros [= Hnone]. apply validate_cert_accepts_iff in Hnone. exists c. tauto.
    + intros (c' & [= <-] & Hlocal & Hplatform).
      f_equal. apply validate_cert_accepts_iff. tauto.
  - split; [discriminate | intros (c & [=] & _)].
Qed.

(** X6. The local tests come first.  A certificate that fails the IP match
    or one of the four bound lists is refused with an error that is the same
    whatever platform client is at hand: no lookup is made on the platform
    for it. *)
Theorem validate_local_tests_first (role : RoleEntry cidrT) (cfCert : CFCertificate)
    (addr : string) :
  local_constraints_met D role cfCert addr = false ->
  exists err,
    forall client : clientT, validate D client role (Some cfCert) addr = Done (Some err).
Proof.
  intros Hlocal. unfold local_constraints_met, validate in *.
  destruct (DisableIPMatching role) eqn:Eoff,
    (matchesIPAddress D addr (ParseIP D (IPAddress cfCert))) eqn:Eip,
    (meetsBoundConstraints (InstanceID cfCert) (BoundInstanceIDs role)) eqn:Einstance,
    (meetsBoundConstraints (AppID cfCert) (BoundAppIDs role)) eqn:Eapp,
    (meetsBoundConstraints (OrgID cfCert) (BoundOrgIDs role)) eqn:Eorg,
    (meetsBoundConstraints (SpaceID cfCert) (BoundSpaceIDs role)) eqn:Espace;
    cbn in Hlocal; try discriminate;
    eexists; intros client; unfold validate_cert;
    rewrite ?Eoff, ?Eip, ?Einstance, ?Eapp, ?Eorg, ?Espace; cbn; reflexivity.
Qed.

(** *** What a granted login has been through *)

Lemma login_grant_inversion (b b1 : backend clientT) (now : Time)
    (req : logical_Request storageT) (data : FieldData) (a : logical_Auth) :
  operationLoginUpdate D b now req data = (b1, grant a) ->
  exists role config t cfCert conn client orgName appName spaceName,
    reaches_window D req data role t config
    /\ Time_Before t (Time_Add now (wrap64 (-1 * LoginMaxSecNotBefore config))) = false
    /\ Time_After t (Time_Add now (LoginMaxSecNotAfter config)) = false
    /\ reaches_validate D b data t config (Some cfCert) b1 client
    /\ Connection req = Some conn
    /\ validate D client role (Some cfCert) (RemoteAddr conn) = Done None
    /\ getOrgName D client (Some cfCert) = Done (orgName, None)
    /\ getAppName D client (Some cfCert) = Done (appName, None)
    /\ getSpaceName D client (Some cfCert) = Done (spaceName, None)
    /\ a = PopulateTokenAuth D role
             (login_auth (data_Get data "role") cfCert orgName appName spaceName).
Proof.
  unfold operationLoginUpdate, reject, fail, grant. intros Hgrant.
  destruct (is_empty (data_Get data "role")) eqn:Ename; [discriminate|].
  destruct (getRole D (Storage req) (data_Get data "role")) as [[role|] [e|]] eqn:Erole;
    try discriminate.
  destruct ((0 <? length (TokenBoundCIDRs role))%nat && _) eqn:Eguard; [discriminate|].
  destruct (is_empty (data_Get data "signature")) eqn:Esig; [discriminate|].
  destruct (is_empty (data_Get data "cf_instance_cert")) eqn:Econtents; [discriminate|].
  destruct (is_empty (data_Get data "signing_time")) eqn:Eraw; [discriminate|].
  destruct (parseTime D (data_Get data "signing_time")) as [t [e|]] eqn:Eparse;
    [discriminate|].
  destruct (getConfig D (Storage req)) as [[config|] [e|]] eqn:Econfig; try discriminate.
  destruct (Time_Before t _) eqn:Eold; [discriminate|].
  destruct (Time_After t _) eqn:Enew; [discriminate|].
  assert (Hreach : reaches_window D req data role t config)
    by (unfold reaches_window; auto 10).
  unfold operationLoginUpdate_verify, reject, fail, grant in Hgrant.
  destruct (ExtractCertificates D _) as [[intermediateCert identityCert] [e|]] eqn:Eextract;
    [discriminate|].
  destruct (Verify D _ _) as [signingCert [e|]] eqn:Everify; [discriminate|].
  destruct (Validate D _ _ _ _) as [e|] eqn:Echain; [discriminate|].
  destruct (NewCFCertificateFromx509 D signingCert) as [cfCert [e|]] eqn:Ecert;
    [discriminate|].
  destruct (getCFClientOrRefresh D b config) as [b' [client [e|]]] eqn:Eclient;
    [discriminate|].
  destruct (Connection req) as [conn|] eqn:Econn; [|discriminate].
  destruct (validate D client role cfCert (RemoteAddr conn)) as [[e|]|] eqn:Evalidate;
    try discriminate.
  destruct (getOrgName D client cfCert) as [[orgName [e|]]|] eqn:Eorg; try discriminate.
  destruct (getAppName D client cfCert) as [[appName [e|]]|] eqn:Eapp; try discriminate.
  destruct (getSpaceName D client cfCert) as [[spaceName [e|]]|] eqn:Espace; try discriminate.
  destruct cfCert as [cfCert|]; [|discriminate].
  injection Hgrant as <- <-.
  exists role, config, t, cfCert, conn, client, orgName, appName, spaceName.
  split_and!; try assumption; try reflexivity.
  exists intermediateCert, identityCert, signingCert. auto.
Qed.

(** X7. A login is granted only after every gate: the role resolves and its
    CIDR guard lets the request through, the three fields are given, the
    signing time parses and lies in the window around the clock reading,
    the bundle yields certificates, the signature verifies, the chain
    validates, there is connection information, and [validate] accepts the
    identity read from the signing certificate for the address of the
    connection.  The backend is then as the client lookup left it. *)
Theorem login_granted_only_through_all_gates (b b1 : backend clientT) (now : Time)
    (req : logical_Request storageT) (data : FieldData) (a : logical_Auth) :
  operationLoginUpdate D b now req data = (b1, grant a) ->
  exists role config t cfCert conn client,
    reaches_window D req data role t config
    /\ (0 <= LoginMaxSecNotBefore config <= max_int64 -> in_window now t config)
    /\ reaches_validate D b data t config (Some cfCert) b1 client
    /\ Connection req = Some conn
    /\ local_constraints_met D role cfCert (RemoteAddr conn) = true
    /\ platform_agrees D client cfCert.
Proof.
  intros Hgrant.
  destruct (login_grant_inversion _ _ _ _ _ _ Hgrant)
    as (role & config & t & cfCert & conn & client & orgName & appName & spaceName
        & Hreach & Hold & Hnew & Hvalidate & Hconn & Haccept & _).
  exists role, config, t, cfCert, conn, client.
  unfold validate in Haccept. injection Haccept as Haccept.
  apply validate_cert_accepts_iff in Haccept as [Hlocal Hplatform].
  split_and!; try assumption.
  intros Hbefore. split.
  - rewrite (wrap64_negate _ Hbefore) in Hold. unfold Time_Before, Time_Add in Hold.
    apply Z.ltb_ge in Hold. lia.
  - unfold Time_After, Time_Add in Hnew. apply Z.ltb_ge in Hnew. lia.
Qed.

(** X8. Whatever login grants, [resolveRole] resolves: on the same request
    and fields it answers with the role name that the login was made
    under. *)
Theorem login_granted_role_resolves (b b1 : backend clientT) (now : Time)
    (req : logical_Request storageT) (data : FieldData) (a : logical_Auth) :
  operationLoginUpdate D b now req data = (b1, grant a) ->
  resolveRole D req data
  = Returned (Some (ResolveRoleResponse (data_Get data "role"))) None.
Proof.
  intros Hgrant.
  destruct (login_grant_inversion _ _ _ _ _ _ Hgrant)
    as (role & config & t & cfCert & conn & client & orgName & appName & spaceName
        & (Hname & Hrole & _) & _).
  unfold resolveRole. rewrite Hname, Hrole. reflexivity.
Qed.

(** *** From login to renewal *)

Lemma getOrErr_any_present (fieldName v : string) (m : gmap string Value) :
  m !! fieldName = Some (VString v) -> v <> "" ->
  getOrErr D fieldName (MapStringAny m) = (v, None).
Proof.
  intros Hm Hv. unfold getOrErr. rewrite Hm. cbn.
  apply is_empty_false in Hv. now rewrite Hv.
Qed.

Lemma login_auth_stored (roleName : string) (cfCert : CFCertificate)
    (orgName appName spaceName : string) :
  let auth := login_auth roleName cfCert orgName appName spaceName in
  InternalData auth !! "role" = Some (VString roleName)
  /\ InternalData auth !! "instance_id" = Some (VString (InstanceID cfCert))
  /\ InternalData auth !! "ip_address" = Some (VString (IPAddress cfCert))
  /\ exists alias, Alias auth = Some alias
       /\ Alias_Name alias = AppID cfCert
       /\ Metadata alias !! "org_id" = Some (OrgID cfCert)
       /\ Metadata alias !! "space_id" = Some (SpaceID cfCert)
       /\ Metadata alias !! "app_id" = Some (AppID cfCert).
Proof.
  cbn. split_and!; try reflexivity. eexists. split_and!; reflexivity.
Qed.

(** X9. What login stores is what renewal reads back.  Let a login be
    granted, and let [PopulateTokenAuth] leave internal data and alias as
    they are.  A renewal that presents the granted auth object against the
    same storage then re-validates the very identifiers of the certificate
    that the login read from the request, under the role and configuration
    of the login, provided the instance ID and the IP address of that
    certificate are not empty; if one of them is empty, the renewal ends in
    a hard error. *)
Theorem login_then_renew_same_identity (b b1 : backend clientT) (now : Time)
    (req : logical_Request storageT) (data : FieldData) (a : logical_Auth) :
  operationLoginUpdate D b now req data = (b1, grant a) ->
  (forall (role : RoleEntry cidrT) (auth : logical_Auth),
      InternalData (PopulateTokenAuth D role auth) = InternalData auth
      /\ Alias (PopulateTokenAuth D role auth) = Alias auth) ->
  exists role config cfCert,
    getRole D (Storage req) (data_Get data "role") = (Some role, None)
    /\ getConfig D (Storage req) = (Some config, None)
    /\ login_certificate D data = Some cfCert
    /\ forall (b2 : backend clientT) (req' : logical_Request storageT) (data' : FieldData),
         Storage req' = Storage req ->
         Auth req' = Some a ->
         (InstanceID cfCert <> "" -> IPAddress cfCert <> "" ->
          pathLoginRenew D b2 req' data'
          = pathLoginRenew_validate D b2 req' config role a
              (InstanceID cfCert) (OrgID cfCert) (SpaceID cfCert) (AppID cfCert)
              (IPAddress cfCert))
         /\ (InstanceID cfCert = "" \/ IPAddress cfCert = "" ->
             exists err, pathLoginRenew D b2 req' data' = (b2, req', Returned None (Some err))).
Proof.
  intros Hgrant Hkeeps.
  destruct (login_grant_inversion _ _ _ _ _ _ Hgrant)
    as (role & config & t & cfCert & conn & client & orgName & appName & spaceName
        & (Hname & Hrole & _ & _ & _ & _ & Hparse & Hconfig) & _ & _
        & (intermediateCert & identityCert & signingCert & _ & Hverify & _ & Hcert & _)
        & Hconn & Haccept & _ & _ & _ & ->).
  exists role, config, cfCert. split_and!; try assumption.
  { unfold login_certificate. rewrite Hparse. cbn [fst]. rewrite Hverify. cbn [fst].
    now rewrite Hcert. }
  intros b2 req' data' Hstorage Hauth.
  destruct (Hkeeps role (login_auth (data_Get data "role") cfCert orgName appName spaceName))
    as [Hinternal Halias].
  destruct (login_auth_stored (data_Get data "role") cfCert orgName appName spaceName)
    as (Hr & Hi & Hip & alias & Ha & _ & Horg & Hspace & Happ).
  rewrite <- Hinternal in Hr, Hi, Hip. rewrite <- Halias in Ha.
  apply is_empty_false in Hname.
  unfold pathLoginRenew. rewrite Hstorage, Hconfig, Hauth.
  rewrite (getOrErr_any_present _ _ _ Hr Hname), Hrole.
  split.
  - intros Hinstance Haddress.
    rewrite (getOrErr_any_present _ _ _ Hi Hinstance),
      (getOrErr_any_present _ _ _ Hip Haddress), Ha.
    rewrite (getOrErr_string_present D _ _ _ Horg), (getOrErr_string_present D _ _ _ Hspace),
      (getOrErr_string_present D _ _ _ Happ).
    reflexivity.
  - intros [Hempty | Hempty].
    + rewrite Hempty in Hi. rewrite (getOrErr_any_empty D _ _ Hi). eexists. reflexivity.
    + destruct (getOrErr D "instance_id" _) as [instanceID [e|]];
        [eexists; reflexivity|].
      rewrite Hempty in Hip. rewrite (getOrErr_any_empty D _ _ Hip). eexists. reflexivity.
Qed.

(** *** What a granted renewal has been through *)

Lemma getOrErr_any_inversion (fieldName v : string) (m : gmap string Value) :
  getOrErr D fieldName (MapStringAny m) = (v, None) ->
  m !! fieldName = Some (VString v) /\ v <> "".
Proof.
  unfold getOrErr. destruct (m !! fieldName) as [[s| | |]|]; cbn; try discriminate.
  destruct (is_empty s) eqn:Es; [discriminate|].
  intros [= ->]. split; [reflexivity | now apply is_empty_false].
Qed.

Lemma getOrErr_string_inversion (fieldName v : string) (m : gmap string string) :
  getOrErr D fieldName (MapStringString m) = (v, None) -> m !! fieldName = Some v.
Proof.
  unfold getOrErr. destruct (m !! fieldName) as [s|]; [|discriminate]. now intros [= ->].
Qed.

Lemma renew_grant_inversion (b b1 : backend clientT) (req req1 : logical_Request storageT)
    (data : FieldData) (a : logical_Auth) :
  pathLoginRenew D b req data = (b1, req1, grant a) ->
  exists auth config role alias instanceID ipAddr orgID spaceID appID cfCert client conn,
    internal_data_extracted D req auth config role instanceID ipAddr
    /\ Alias auth = Some alias
    /\ getOrErr D "org_id" (MapStringString (Metadata alias)) = (orgID, None)
    /\ getOrErr D "space_id" (MapStringString (Metadata alias)) = (spaceID, None)
    /\ getOrErr D "app_id" (MapStringString (Metadata alias)) = (appID, None)
    /\ fst (NewCFCertificate D instanceID orgID spaceID appID ipAddr) = Some cfCert
    /\ getCFClientOrRefresh D b config = (b1, (client, None))
    /\ Connection req = Some conn
    /\ validate_cert D client role cfCert (RemoteAddr conn) = None
    /\ a = renewed auth role
    /\ req1 = with_Auth req a.
Proof.
  unfold pathLoginRenew, reject, fail, grant. intros Hgrant.
  destruct (getConfig D (Storage req)) as [[config|] [e|]] eqn:Econfig; try discriminate.
  destruct (Auth req) as [auth|] eqn:Eauth; [|discriminate].
  destruct (getOrErr D "role" _) as [roleName [e|]] eqn:Erole; [discriminate|].
  destruct (getRole D (Storage req) roleName) as [[role|] [e|]] eqn:Eresolve;
    try discriminate.
  destruct (getOrErr D "instance_id" _) as [instanceID [e|]] eqn:Einstance; [discriminate|].
  destruct (getOrErr D "ip_address" _) as [ipAddr [e|]] eqn:Eip; [discriminate|].
  destruct (Alias auth) as [alias|] eqn:Ealias; [|discriminate].
  destruct (getOrErr D "org_id" _) as [orgID [e|]] eqn:Eorg; [discriminate|].
  destruct (getOrErr D "space_id" _) as [spaceID [e|]] eqn:Espace; [discriminate|].
  destruct (getOrErr D "app_id" _) as [appID [e|]] eqn:Eapp; [discriminate|].
  unfold pathLoginRenew_validate, reject, fail, grant in Hgrant.
  destruct (NewCFCertificate D instanceID orgID spaceID appID ipAddr) as [cfCert e] eqn:Ecert.
  destruct (getCFClientOrRefresh D b config) as [b' [client [e'|]]] eqn:Eclient;
    [discriminate|].
  destruct (Connection req) as [conn|] eqn:Econn; [|discriminate].
  destruct cfCert as [cfCert|]; [|discriminate].
  cbn [validate] in Hgrant.
  destruct (validate_cert D client role cfCert (RemoteAddr conn)) as [e'|] eqn:Evalidate;
    [discriminate|].
  injection Hgrant as <- <- <-.
  exists auth, config, role, alias, instanceID, ipAddr, orgID, spaceID, appID, cfCert,
    client, conn.
  split_and!; try assumption; try reflexivity.
  - exists roleName. auto 10.
  - now rewrite Ecert.
Qed.

(** X10. A renewal is granted only after the stored identity has been
    re-validated.  The request carries an auth object whose internal data
    holds non-empty strings under role, instance_id and ip_address and whose
    alias metadata holds org_id, space_id and app_id; the role stored under
    that name exists; the certificate rebuilt from the five identifiers
    passes the local tests for the address of the connection and is borne
    out by the platform.  The auth returned is that of the request with the
    role's TTL, MaxTTL and Period, and the backend is as the client lookup
    left it. *)
Theorem renew_granted_only_after_validation (b b1 : backend clientT)
    (req req1 : logical_Request storageT) (data : FieldData) (a : logical_Auth) :
  pathLoginRenew D b req data = (b1, req1, grant a) ->
  exists auth config roleName role alias instanceID ipAddr orgID spaceID appID cfCert
         client conn,
    Auth req = Some auth
    /\ InternalData auth !! "role" = Some (VString roleName) /\ roleName <> ""
    /\ InternalData auth !! "instance_id" = Some (VString instanceID) /\ instanceID <> ""
    /\ InternalData auth !! "ip_address" = Some (VString ipAddr) /\ ipAddr <> ""
    /\ Alias auth = Some alias
    /\ Metadata alias !! "org_id" = Some orgID
    /\ Metadata alias !! "space_id" = Some spaceID
    /\ Metadata alias !! "app_id" = Some appID
    /\ getConfig D (Storage req) = (Some config, None)
    /\ getRole D (Storage req) roleName = (Some role, None)
    /\ fst (NewCFCertificate D instanceID orgID spaceID appID ipAddr) = Some cfCert
    /\ getCFClientOrRefresh D b config = (b1, (client, None))
    /\ Connection req = Some conn
    /\ local_constraints_met D role cfCert (RemoteAddr conn) = true
    /\ platform_agrees D client cfCert
    /\ a = renewed auth role
    /\ req1 = with_Auth req a.
Proof.
  intros Hgrant.
  destruct (renew_grant_inversion _ _ _ _ _ _ Hgrant)
    as (auth & config & role & alias & instanceID & ipAddr & orgID & spaceID & appID
        & cfCert & client & conn
        & (roleName & Hconfig & Hauth & Hrole & Hresolve & Hinstance & Hip)
        & Halias & Horg & Hspace & Happ & Hcert & Hclient & Hconn & Haccept & Ha & Hreq).
  apply getOrErr_any_inversion in Hrole as [Hrole Hrole'].
  apply getOrErr_any_inversion in Hinstance as [Hinstance Hinstance'].
  apply getOrErr_any_inversion in Hip as [Hip Hip'].
  apply getOrErr_string_inversion in Horg, Hspace, Happ.
  apply validate_cert_accepts_iff in Haccept as [Hlocal Hplatform].
  exists auth, config, roleName, role, alias, instanceID, ipAddr, orgID, spaceID, appID,
    cfCert, client, conn.
  split_and!; assumption.
Qed.

(** *** What the handlers write *)

(** X11. [operationLoginUpdate] writes no field of the backend: after the
    call the backend is the one it was given or, once the client has been
    asked for, the one that [getCFClientOrRefresh] returned.  In particular
    a login whose validation fails does not taint the client. *)
Theorem login_leaves_backend_to_client_lookup (b : backend clientT) (now : Time)
    (req : logical_Request storageT) (data : FieldData) :
  fst (operationLoginUpdate D b now req data) = b
  \/ exists config,
       getConfig D (Storage req) = (Some config, None)
       /\ fst (operationLoginUpdate D b now req data) = fst (getCFClientOrRefresh D b config).
Proof.
  unfold operationLoginUpdate.
  destruct (is_empty (data_Get data "role")); [now left|].
  destruct (getRole D (Storage req) (data_Get data "role")) as [[role|] [e|]];
    try (now left).
  destruct ((0 <? length (TokenBoundCIDRs role))%nat && _); [now left|].
  destruct (is_empty (data_Get data "signature")); [now left|].
  destruct (is_empty (data_Get data "cf_instance_cert")); [now left|].
  destruct (is_empty (data_Get data "signing_time")); [now left|].
  destruct (parseTime D (data_Get data "signing_time")) as [t [e|]]; [now left|].
  destruct (getConfig D (Storage req)) as [[config|] [e|]]; try (now left).
  destruct (Time_Before t _); [now left|].
  destruct (Time_After t _); [now left|].
  unfold operationLoginUpdate_verify.
  destruct (ExtractCertificates D _) as [[intermediateCert identityCert] [e|]]; [now left|].
  destruct (Verify D _ _) as [signingCert [e|]]; [now left|].
  destruct (Validate D _ _ _ _) as [e|]; [now left|].
  destruct (NewCFCertificateFromx509 D signingCert) as [cfCert [e|]]; [now left|].
  right. exists config. split; [reflexivity|].
  destruct (getCFClientOrRefresh D b config) as [b' [client [e|]]]; [reflexivity|].
  repeat (case_match; try reflexivity).
Qed.

(** X12. [pathLoginRenew] changes the request only when it grants: the auth
    object of the request is then the one in the response.  It changes the
    backend beyond what [getCFClientOrRefresh] did only by setting the taint
    flag, and it sets the flag only together with an error response. *)
Theorem renew_writes (b b1 : backend clientT) (req req1 : logical_Request storageT)
    (data : FieldData) (out : outcome) :
  pathLoginRenew D b req data = (b1, req1, out) ->
  (req1 = req \/ exists a, out = grant a /\ req1 = with_Auth req a)
  /\ (b1 = b
      \/ exists config,
           getConfig D (Storage req) = (Some config, None)
           /\ (b1 = fst (getCFClientOrRefresh D b config)
               \/ b1 = taint (fst (getCFClientOrRefresh D b config))
                  /\ exists text, out = reject text)).
Proof.
  unfold pathLoginRenew.
  destruct (getConfig D (Storage req)) as [[config|] [e|]];
    try (intros [= <- <- <-]; split; now left).
  destruct (Auth req) as [auth|]; [|intros [= <- <- <-]; split; now left].
  destruct (getOrErr D "role" _) as [roleName [e|]];
    [intros [= <- <- <-]; split; now left|].
  destruct (getRole D (Storage req) roleName) as [[role|] [e|]];
    try (intros [= <- <- <-]; split; now left).
  destruct (getOrErr D "instance_id" _) as [instanceID [e|]];
    [intros [= <- <- <-]; split; now left|].
  destruct (getOrErr D "ip_address" _) as [ipAddr [e|]];
    [intros [= <- <- <-]; split; now left|].
  destruct (Alias auth) as [alias|]; [|intros [= <- <- <-]; split; now left].
  destruct (getOrErr D "org_id" _) as [orgID [e|]];
    [intros [= <- <- <-]; split; now left|].
  destruct (getOrErr D "space_id" _) as [spaceID [e|]];
    [intros [= <- <- <-]; split; now left|].
  destruct (getOrErr D "app_id" _) as [appID [e|]];
    [intros [= <- <- <-]; split; now left|].
  unfold pathLoginRenew_validate.
  destruct (NewCFCertificate D instanceID orgID spaceID appID ipAddr) as [cfCert e].
  destruct (getCFClientOrRefresh D b config) as [b' [client [e'|]]] eqn:Eclient.
  { intros [= <- <- <-]. split; [now left|]. right. exists config. split; [reflexivity|].
    left. now rewrite Eclient. }
  destruct (Connection req) as [conn|].
  2:{ intros [= <- <- <-]. split; [now left|]. right. exists config.
      split; [reflexivity|]. left. now rewrite Eclient. }
  destruct (validate D client role cfCert (RemoteAddr conn)) as [[err|]|];
    intros [= <- <- <-].
  - split; [now left|]. right. exists config. split; [reflexivity|]. right.
    split; [now rewrite Eclient|]. eexists. reflexivity.
  - split; [right; eexists; split; reflexivity|].
    right. exists config. split; [reflexivity|]. left. now rewrite Eclient.
  - split; [now left|]. right. exists config. split; [reflexivity|]. left.
    now rewrite Eclient.
Qed.

(** *** Where the handlers can panic *)



(** *** Permission denied *)

(** X15. Provided no collaborator hands back [logical.ErrPermissionDenied]
    of its own, a login ends with that error exactly when the CIDR guard
    fires: the role name is given and resolves, the role has bound CIDRs,
    and the request has no connection information or comes from an address
    that the CIDRs do not admit. *)
Theorem login_permission_denied_iff (b b1 : backend clientT) (now : Time)
    (req : logical_Request storageT) (data : FieldData) :
  (forall st name, snd (getRole D st name) <> Some ErrPermissionDenied) ->
  (forall st, snd (getConfig D st) <> Some ErrPermissionDenied) ->
  (forall cert, snd (NewCFCertificateFromx509 D cert) <> Some ErrPermissionDenied) ->
  (forall client guid,
      snd (AppByGuid D client guid) <> Some ErrPermissionDenied
      /\ snd (GetOrgByGuid D client guid) <> Some ErrPermissionDenied
      /\ snd (GetSpaceByGuid D client guid) <> Some ErrPermissionDenied) ->
  operationLoginUpdate D b now req data = (b1, Returned None (Some ErrPermissionDenied))
  <-> b1 = b
      /\ data_Get data "role" <> ""
      /\ exists role,
           getRole D (Storage req) (data_Get data "role") = (Some role, None)
           /\ TokenBoundCIDRs role <> []
           /\ (Connection req = None
               \/ exists conn,
                    Connection req = Some conn
                    /\ RemoteAddrIsOk D (RemoteAddr conn) (TokenBoundCIDRs role) = false).
Proof.
  intros Hrole Hconfig Hcert Hplatform. unfold operationLoginUpdate, reject, fail, grant. split.
  - intros Hdenied.
    destruct (is_empty (data_Get data "role")) eqn:Ename; [discriminate|].
    apply is_empty_false in Ename.
    pose proof (Hrole (Storage req) (data_Get data "role")) as Hrole'.
    destruct (getRole D (Storage req) (data_Get data "role")) as [[role|] [e|]];
      try discriminate; try (injection Hdenied as <- ->; now cbn in Hrole').
    destruct ((0 <? length (TokenBoundCIDRs role))%nat && _) eqn:Eguard.
    + injection Hdenied as <-. split; [reflexivity|]. split; [assumption|].
      exists role. split; [reflexivity|].
      apply andb_true_iff in Eguard as [Hbound Hconn]. split.
      * destruct (TokenBoundCIDRs role); [discriminate | congruence].
      * destruct (Connection req) as [conn|]; [|now left].
        right. exists conn. split; [reflexivity|]. now apply negb_true_iff.
    + exfalso.
      destruct (is_empty (data_Get data "signature")); [discriminate|].
      destruct (is_empty (data_Get data "cf_instance_cert")); [discriminate|].
      destruct (is_empty (data_Get data "signing_time")); [discriminate|].
      destruct (parseTime D (data_Get data "signing_time")) as [t [e|]]; [discriminate|].
      pose proof (Hconfig (Storage req)) as Hconfig'.
      destruct (getConfig D (Storage req)) as [[config|] [e|]];
        try discriminate; try (injection Hdenied as <- ->; now cbn in Hconfig').
      destruct (Time_Before t _); [discriminate|].
      destruct (Time_After t _); [discriminate|].
      unfold operationLoginUpdate_verify, reject, fail, grant in Hdenied.
      destruct (ExtractCertificates D _) as [[intermediateCert identityCert] [e|]];
        [discriminate|].
      destruct (Verify D _ _) as [signingCert [e|]]; [discriminate|].
      destruct (Validate D _ _ _ _) as [e|]; [discriminate|].
      pose proof (Hcert signingCert) as Hcert'.
      destruct (NewCFCertificateFromx509 D signingCert) as [cfCert [e|]];
        [injection Hdenied as <- ->; now cbn in Hcert'|].
      destruct (getCFClientOrRefresh D b config) as [b' [client [e|]]]; [discriminate|].
      destruct (Connection req) as [conn|]; [|discriminate].
      destruct cfCert as [cfCert|]; [|discriminate].
      cbn [validate getOrgName getAppName getSpaceName] in Hdenied.
      destruct (validate_cert D client role cfCert (RemoteAddr conn)); [discriminate|].
      destruct (Hplatform client (OrgID cfCert)) as (_ & Horg & _).
      destruct (Hplatform client (AppID cfCert)) as (Happ & _ & _).
      destruct (Hplatform client (SpaceID cfCert)) as (_ & _ & Hspace).
      destruct (GetOrgByGuid D client (OrgID cfCert)) as [org [e|]];
        [injection Hdenied as <- ->; now cbn in Horg|].
      destruct (AppByGuid D client (AppID cfCert)) as [app [e|]];
        [injection Hdenied as <- ->; now cbn in Happ|].
      destruct (GetSpaceByGuid D client (SpaceID cfCert)) as [space [e|]];
        [injection Hdenied as <- ->; now cbn in Hspace|].
      discriminate.
  - intros (-> & Hname & role & -> & Hbound & Hconn).
    apply is_empty_false in Hname. rewrite Hname.
    destruct (TokenBoundCIDRs role) as [|cidr cidrs] eqn:Ebound; [contradiction|].
    cbn [length Nat.ltb Nat.leb andb].
    destruct Hconn as [-> | (conn & -> & ->)]; reflexivity.
Qed.

(** X18. Renewal has no guard on the connection.  Once the six stored
    fields are extracted and the client is obtained, a renewal request
    without connection information ends in a nil dereference, whether or
    not the role has bound CIDRs. *)
Theorem renew_without_connection_panics (b b' : backend clientT)
    (req : logical_Request storageT) (data : FieldData) (auth : logical_Auth)
    (config : Configuration) (role : RoleEntry cidrT) (alias : logical_Alias)
    (instanceID ipAddr orgID spaceID appID : string) (client : clientT) :
  internal_data_extracted D req auth config role instanceID ipAddr ->
  Alias auth = Some alias ->
  Metadata alias !! "org_id" = Some orgID ->
  Metadata alias !! "space_id" = Some spaceID ->
  Metadata alias !! "app_id" = Some appID ->
  getCFClientOrRefresh D b config = (b', (client, None)) ->
  Connection req = None ->
  pathLoginRenew D b req data = (b', req, Panic).
Proof.
  intros (roleName & Hconfig & Hauth & Hrole & Hresolve & Hinstance & Hip)
    Halias Horg Hspace Happ Hclient Hconn.
  unfold pathLoginRenew.
  rewrite Hconfig, Hauth, Hrole, Hresolve, Hinstance, Hip, Halias.
  rewrite (getOrErr_string_present D _ _ _ Horg), (getOrErr_string_present D _ _ _ Hspace),
    (getOrErr_string_present D _ _ _ Happ).
  unfold pathLoginRenew_validate.
  destruct (NewCFCertificate D instanceID orgID spaceID appID ipAddr) as [cfCert e].
  rewrite Hclient, Hconn. reflexivity.
Qed.

End Behaviour.

(** X16. [pathLoginRenew] consults neither the CIDR test nor the time,
    certificate, signature and chain routines of login: two sets of
    collaborators that agree on storage, on the reconstruction of the
    certificate, on the client lookup, on the platform, on [net.ParseIP] and
    on [%q] give the same renewal, however they differ elsewhere.  The bound
    CIDRs of the role and the validity of the original signature have no
    part in a renewal. *)
Theorem renew_consults_no_login_collaborator {storageT clientT certT cidrT : Type}
    (D D' : Deps storageT clientT certT cidrT) (b : backend clientT)
    (req : logical_Request storageT) (data : FieldData) :
  same_for_renewal D D' ->
  pathLoginRenew D' b req data = pathLoginRenew D b req data.
Proof.
  destruct D, D'. unfold same_for_renewal. cbn.
  intros (-> & -> & -> & -> & -> & -> & -> & -> & ->). reflexivity.
Qed.

(** ** Further behaviour, on the small deployment *)

Lemma getOrErr_succeeds_iff_witness :
  getOrErr (Fixture.deps Fixture.cf) "instance_id" (MapStringAny (InternalData Fixture.issued))
  = ("instance-1", None)
  /\ Fixture.blank_metadata !! "org_id" = Some "".
Proof.
  split.
  - apply (proj1 (getOrErr_succeeds_iff (Fixture.deps Fixture.cf) "instance_id" "instance-1")).
    split; [reflexivity | discriminate].
  - apply (proj1 (proj2 (getOrErr_succeeds_iff (Fixture.deps Fixture.cf) "org_id" ""))).
    reflexivity.
Defined.

Lemma parseTime_fallback_witness :
  parseTime (Fixture.deps Fixture.cf) "900" = (900 * Second, None)
  /\ parseTime (Fixture.deps Fixture.cf) "yesterday"
     = (Time_zero, Some (ErrMsg "couldn't parse yesterday")).
Proof.
  split.
  - apply (proj1 (proj2 (parseTime_fallback (Fixture.deps Fixture.cf) "900"))). reflexivity.
  - apply (proj2 (proj2 (proj2 (parseTime_fallback (Fixture.deps Fixture.cf) "yesterday"))));
      discriminate.
Defined.

Lemma matchesIPAddress_unparsed_remote_witness :
  ParseIP (Fixture.deps Fixture.cf)
    (default "" (strings.Split "localhost/8" "/"%char !! 0%nat)) = net.nilIP
  /\ matchesIPAddress (Fixture.deps Fixture.cf) "localhost/8" (ipv4.ParseIP "unknown") = true
  /\ matchesIPAddress (Fixture.deps Fixture.cf) "localhost/8" (ipv4.ParseIP "10.0.0.5") <> true.
Proof.
  split; [reflexivity|]. split.
  - apply (matchesIPAddress_unparsed_remote (Fixture.deps Fixture.cf) "localhost/8");
      reflexivity.
  - intros Hmatch.
    apply (matchesIPAddress_unparsed_remote (Fixture.deps Fixture.cf) "localhost/8") in Hmatch;
      [discriminate | reflexivity].
Defined.

Lemma validate_local_tests_first_witness :
  local_constraints_met (Fixture.deps Fixture.cf) Fixture.other_role Fixture.cert1 "10.0.0.5"
  = false
  /\ exists err,
      forall client : Fixture.platform,
        validate (Fixture.deps Fixture.cf) client Fixture.other_role (Some Fixture.cert1)
          "10.0.0.5"
        = Done (Some err).
Proof.
  split; [reflexivity|].
  apply (validate_local_tests_first (Fixture.deps Fixture.cf)). reflexivity.
Defined.

Lemma fixture_login_granted :
  operationLoginUpdate (Fixture.deps Fixture.cf) Fixture.idle (1000 * Second)
    (Fixture.request (Fixture.from "10.0.0.5/32") None) (Fixture.login_data "open" "900")
  = (Fixture.ready, grant Fixture.granted).
Proof. reflexivity. Defined.

Lemma login_granted_only_through_all_gates_witness :
  exists role config t cfCert conn client,
    reaches_window (Fixture.deps Fixture.cf) (Fixture.request (Fixture.from "10.0.0.5/32") None)
      (Fixture.login_data "open" "900") role t config
    /\ (0 <= LoginMaxSecNotBefore config <= max_int64 -> in_window (1000 * Second) t config)
    /\ reaches_validate (Fixture.deps Fixture.cf) Fixture.idle
         (Fixture.login_data "open" "900") t config (Some cfCert) Fixture.ready client
    /\ Connection (Fixture.request (Fixture.from "10.0.0.5/32") None) = Some conn
    /\ local_constraints_met (Fixture.deps Fixture.cf) role cfCert (RemoteAddr conn) = true
    /\ platform_agrees (Fixture.deps Fixture.cf) client cfCert.
Proof.
  exact (login_granted_only_through_all_gates (Fixture.deps Fixture.cf) _ _ _ _ _ _
           fixture_login_granted).
Defined.

Lemma login_granted_role_resolves_witness :
  resolveRole (Fixture.deps Fixture.cf) (Fixture.request (Fixture.from "10.0.0.5/32") None)
    (Fixture.login_data "open" "900")
  = Returned (Some (ResolveRoleResponse "open")) None.
Proof.
  exact (login_granted_role_resolves (Fixture.deps Fixture.cf) _ _ _ _ _ _
           fixture_login_granted).
Defined.

Lemma login_then_renew_same_identity_witness :
  pathLoginRenew (Fixture.deps Fixture.cf) Fixture.ready
    (Fixture.request (Fixture.from "10.0.0.5") (Some Fixture.granted)) ∅
  = pathLoginRenew_validate (Fixture.deps Fixture.cf) Fixture.ready
      (Fixture.request (Fixture.from "10.0.0.5") (Some Fixture.granted))
      Fixture.settings Fixture.open_role Fixture.granted
      "instance-1" "org-1" "space-1" "app-1" "10.0.0.5".
Proof.
  destruct (login_then_renew_same_identity (Fixture.deps Fixture.cf) _ _ _ _ _ _
              fixture_login_granted)
    as (role & config & cfCert & Hrole & Hconfig & Hcert & Hrenew).
  { intros role auth. split; reflexivity. }
  injection Hrole as <-. injection Hconfig as <-. injection Hcert as <-.
  apply (Hrenew Fixture.ready
           (Fixture.request (Fixture.from "10.0.0.5") (Some Fixture.granted)) ∅);
    [reflexivity | reflexivity | discriminate | discriminate].
Defined.

Lemma fixture_renewal_granted :
  pathLoginRenew (Fixture.deps Fixture.cf) Fixture.ready
    (Fixture.request (Fixture.from "10.0.0.5") (Some Fixture.granted)) ∅
  = (Fixture.ready,
     with_Auth (Fixture.request (Fixture.from "10.0.0.5") (Some Fixture.granted))
       (renewed Fixture.granted Fixture.open_role),
     grant (renewed Fixture.granted Fixture.open_role)).
Proof. reflexivity. Defined.

Lemma renew_granted_only_after_validation_witness :
  exists auth config roleName role alias instanceID ipAddr orgID spaceID appID cfCert
         client conn,
    Auth (Fixture.request (Fixture.from "10.0.0.5") (Some Fixture.granted)) = Some auth
    /\ InternalData auth !! "role" = Some (VString roleName) /\ roleName <> ""
    /\ InternalData auth !! "instance_id" = Some (VString instanceID) /\ instanceID <> ""
    /\ InternalData auth !! "ip_address" = Some (VString ipAddr) /\ ipAddr <> ""
    /\ Alias auth = Some alias
    /\ Metadata alias !! "org_id" = Some orgID
    /\ Metadata alias !! "space_id" = Some spaceID
    /\ Metadata alias !! "app_id" = Some appID
    /\ getConfig (Fixture.deps Fixture.cf) Fixture.st = (Some config, None)
    /\ getRole (Fixture.deps Fixture.cf) Fixture.st roleName = (Some role, None)
    /\ fst (NewCFCertificate (Fixture.deps Fixture.cf) instanceID orgID spaceID appID ipAddr)
       = Some cfCert
    /\ getCFClientOrRefresh (Fixture.deps Fixture.cf) Fixture.ready config
       = (Fixture.ready, (client, None))
    /\ Connection (Fixture.request (Fixture.from "10.0.0.5") (Some Fixture.granted)) = Some conn
    /\ local_constraints_met (Fixture.deps Fixture.cf) role cfCert (RemoteAddr conn) = true
    /\ platform_agrees (Fixture.deps Fixture.cf) client cfCert
    /\ renewed Fixture.granted Fixture.open_role = renewed auth role
    /\ with_Auth (Fixture.request (Fixture.from "10.0.0.5") (Some Fixture.granted))
         (renewed Fixture.granted Fixture.open_role)
       = with_Auth (Fixture.request (Fixture.from "10.0.0.5") (Some Fixture.granted))
           (renewed Fixture.granted Fixture.open_role).
Proof.
  exact (renew_granted_only_after_validation (Fixture.deps Fixture.cf) _ _ _ _ _ _
           fixture_renewal_granted).
Defined.

Lemma renew_writes_witness :
  (Fixture.request (Fixture.from "10.0.0.9") (Some Fixture.granted)
   = Fixture.request (Fixture.from "10.0.0.9") (Some Fixture.granted)
   \/ exists a,
        reject "no matching IP address" = grant a
        /\ Fixture.request (Fixture.from "10.0.0.9") (Some Fixture.granted)
           = with_Auth (Fixture.request (Fixture.from "10.0.0.9") (Some Fixture.granted)) a)
  /\ (taint Fixture.ready = Fixture.ready
      \/ exists config,
           getConfig (Fixture.deps Fixture.cf) Fixture.st = (Some config, None)
           /\ (taint Fixture.ready
               = fst (getCFClientOrRefresh (Fixture.deps Fixture.cf) Fixture.ready config)
               \/ taint Fixture.ready
                  = taint (fst (getCFClientOrRefresh (Fixture.deps Fixture.cf)
                                  Fixture.ready config))
                  /\ exists text, reject "no matching IP address" = reject text)).
Proof.
  apply (renew_writes (Fixture.deps Fixture.cf) Fixture.ready (taint Fixture.ready)
           (Fixture.request (Fixture.from "10.0.0.9") (Some Fixture.granted))
           (Fixture.request (Fixture.from "10.0.0.9") (Some Fixture.granted)) ∅).
  reflexivity.
Defined.



Lemma fixture_lookup_or_message {A} (zero : A) (what : string) (table : gmap string A)
    (guid : string) :
  snd (Fixture.lookup_or zero what table guid) <> Some ErrPermissionDenied.
Proof. unfold Fixture.lookup_or. destruct (table !! guid); discriminate. Defined.

Lemma login_permission_denied_iff_witness :
  operationLoginUpdate (Fixture.deps Fixture.cf) Fixture.idle (1000 * Second)
    (Fixture.request (Fixture.from "192.168.1.1") None) (Fixture.role_only "fenced")
  = (Fixture.idle, Returned None (Some ErrPermissionDenied)).
Proof.
  apply (login_permission_denied_iff (Fixture.deps Fixture.cf)).
  - intros st name. discriminate.
  - intros st. discriminate.
  - intros cert. discriminate.
  - intros client guid. split_and!; apply fixture_lookup_or_message.
  - split; [reflexivity|]. split; [discriminate|].
    exists Fixture.fenced_role. split; [reflexivity|]. split; [discriminate|].
    right. exists {| RemoteAddr := "192.168.1.1" |}. split; reflexivity.
Defined.

Lemma renew_consults_no_login_collaborator_witness :
  same_for_renewal (Fixture.deps Fixture.cf) Fixture.sealed
  /\ pathLoginRenew Fixture.sealed Fixture.ready
       (Fixture.request (Fixture.from "10.0.0.5") (Some Fixture.granted)) ∅
     = pathLoginRenew (Fixture.deps Fixture.cf) Fixture.ready
         (Fixture.request (Fixture.from "10.0.0.5") (Some Fixture.granted)) ∅.
Proof.
  assert (Hsame : same_for_renewal (Fixture.deps Fixture.cf) Fixture.sealed)
    by (unfold same_for_renewal; split_and!; reflexivity).
  split; [exact Hsame|].
  apply (renew_consults_no_login_collaborator _ _ _ _ _ Hsame).
Defined.

(** X17. [meetsBoundConstraints] reads its list as a set: two lists with
    the same elements, in whatever order and however often repeated, admit
    the same values. *)
Theorem meetsBoundConstraints_same_elements (value : string) (l l' : list string) :
  (forall x, In x l <-> In x l') ->
  meetsBoundConstraints value l = meetsBoundConstraints value l'.
Proof.
  intros Hsame. unfold meetsBoundConstraints.
  destruct l as [|c l], l' as [|c' l']; cbn [length Nat.eqb].
  - reflexivity.
  - exfalso. apply (Hsame c'). now left.
  - exfalso. apply (Hsame c). now left.
  - destruct (strutil.StrListContains (c :: l) value) eqn:Hl,
      (strutil.StrListContains (c' :: l') value) eqn:Hl'; try reflexivity.
    + apply StrListContains_In, Hsame, StrListContains_In in Hl. congruence.
    + apply StrListContains_In, Hsame, StrListContains_In in Hl'. congruence.
Qed.

Lemma meetsBoundConstraints_same_elements_witness :
  meetsBoundConstraints "app-1" ["app-2"; "app-1"; "app-2"]
  = meetsBoundConstraints "app-1" ["app-1"; "app-2"].
Proof.
  apply meetsBoundConstraints_same_elements. intros x. cbn. tauto.
Defined.

Lemma renew_without_connection_panics_witness :
  pathLoginRenew (Fixture.deps Fixture.cf) Fixture.ready
    (Fixture.request None (Some (Fixture.stored (InternalData Fixture.issued)
                                   Fixture.issued_metadata))) ∅
  = (Fixture.ready,
     Fixture.request None (Some (Fixture.stored (InternalData Fixture.issued)
                                   Fixture.issued_metadata)),
     Panic).
Proof.
  apply (renew_without_connection_panics (Fixture.deps Fixture.cf) Fixture.ready Fixture.ready
           _ ∅ _ Fixture.settings Fixture.open_role
           {| Alias_Name := "app-1"; Metadata := Fixture.issued_metadata |}
           "instance-1" "10.0.0.5" "org-1" "space-1" "app-1" Fixture.cf
           (fixture_internal_data_extracted None Fixture.issued_metadata));
    reflexivity.
Defined.
